(** * MikrotikMonitor: the SNMP poller of MikrotikMonitor.go, embedded in Rocq

    The package polls MikroTik devices over SNMP through the process-wide
    session [gosnmp.Default], maps five fixed OIDs into a [Device] record and
    serialises the fleet with [encoding/json].

    Go strings are byte sequences: they are [string] here (a list of 8-bit
    [ascii]).  The shared session is threaded explicitly through the
    functions that mutate it, the methods of the library included; the
    library and the network behind it are a record of functions
    ([gosnmp.Network]); a Go [error] is its message. *)

From Stdlib Require Import String Ascii List Bool NArith ZArith Lia.
Import ListNotations.
Open Scope list_scope.
Open Scope string_scope.

(** ** Package [strings] (the functions the program calls) *)
Module strings.

(** [s[n:]] *)
Fixpoint drop (n : nat) (s : string) : string :=
  match n, s with
  | O, _ => s
  | S _, EmptyString => EmptyString
  | S n', String _ s' => drop n' s'
  end.

(** [s[:n]] *)
Fixpoint take (n : nat) (s : string) : string :=
  match n, s with
  | O, _ => EmptyString
  | S _, EmptyString => EmptyString
  | S n', String c s' => String c (take n' s')
  end.

(** [strings.HasPrefix(s, prefix)] *)
Definition HasPrefix (s pre : string) : bool := String.prefix pre s.

(** [strings.Cut(s, sep)]: the text before and after the first instance of
    [sep], or [None] when [sep] does not occur. *)
Fixpoint Cut (s sep : string) : option (string * string) :=
  if HasPrefix s sep then Some (EmptyString, drop (String.length sep) s)
  else match s with
       | EmptyString => None
       | String c s' =>
           match Cut s' sep with
           | Some (before, after) => Some (String c before, after)
           | None => None
           end
       end.

(** [strings.Contains(s, substr)] *)
Definition Contains (s substr : string) : bool :=
  match Cut s substr with Some _ => true | None => false end.

(** [strings.Replace(s, old, new, n)] for a non-empty [old] and [n >= 0]:
    the first [n] non-overlapping instances of [old], from the left, are
    replaced by [new]. *)
Fixpoint Replace (s old new : string) (n : nat) : string :=
  match n with
  | O => s
  | S n' =>
      match Cut s old with
      | None => s
      | Some (before, after) => before ++ new ++ Replace after old new n'
      end
  end.

End strings.

(** ** Package [gosnmp] (the part of the library the program touches)

    The constants carry the values the library declares for them. *)
Module gosnmp.

Definition error := string.

Local Open Scope N_scope.

Definition SnmpVersion := N.
Definition Version1 : SnmpVersion := 0.
Definition Version2c : SnmpVersion := 1.
Definition Version3 : SnmpVersion := 3.

Definition SnmpV3SecurityModel := N.
Definition UserSecurityModel : SnmpV3SecurityModel := 3.

(** Message flags are a bit set: bit 0 asks for authentication, bit 1 for
    privacy. *)
Definition SnmpV3MsgFlags := N.
Definition NoAuthNoPriv : SnmpV3MsgFlags := 0.
Definition AuthNoPriv : SnmpV3MsgFlags := 1.
Definition AuthPriv : SnmpV3MsgFlags := 3.
Definition Reportable : SnmpV3MsgFlags := 4.

Definition requiresAuth (f : SnmpV3MsgFlags) : bool := N.testbit f 0.
Definition requiresPriv (f : SnmpV3MsgFlags) : bool := N.testbit f 1.

(** The zero value [0] of both protocol types is none of the named
    constants: it is what an unset field of a bundle holds. *)
Definition SnmpV3AuthProtocol := N.
Definition NoAuth : SnmpV3AuthProtocol := 1.
Definition MD5 : SnmpV3AuthProtocol := 2.
Definition SHA : SnmpV3AuthProtocol := 3.

Definition SnmpV3PrivProtocol := N.
Definition NoPriv : SnmpV3PrivProtocol := 1.
Definition DES : SnmpV3PrivProtocol := 2.
Definition AES : SnmpV3PrivProtocol := 3.

(** [time.Duration]: nanoseconds. *)
Definition Duration := Z.
Definition Second : Duration := 1000000000%Z.

Record UsmSecurityParameters := {
  UserName : string;
  AuthenticationProtocol : SnmpV3AuthProtocol;
  AuthenticationPassphrase : string;
  PrivacyProtocol : SnmpV3PrivProtocol;
  PrivacyPassphrase : string
}.

(** The fields of [GoSNMP] that the program writes.  [SecurityParameters]
    is an interface value: [None] is [nil]. *)
Record GoSNMP := {
  Target : string;
  Community : string;
  Version : SnmpVersion;
  Timeout : Duration;
  SecurityModel : SnmpV3SecurityModel;
  MsgFlags : SnmpV3MsgFlags;
  SecurityParameters : option UsmSecurityParameters
}.

(** [gosnmp.Default] as the library initialises it. *)
Definition Default : GoSNMP := {|
  Target := EmptyString;
  Community := "public";
  Version := Version2c;
  Timeout := (2 * Second)%Z;
  SecurityModel := 0;
  MsgFlags := NoAuthNoPriv;
  SecurityParameters := None
|}.

(** The dynamic type of a PDU value ([interface{}]): a byte slice for an
    OctetString, numbers, text (an OID or an address), or [nil] (Null,
    NoSuchObject, NoSuchInstance, EndOfMibView). *)
Inductive PDUValue :=
| Bytes (b : string)
| Int (z : Z)
| Uint (n : N)
| Text (s : string)
| Nil.

Record SnmpPDU := { Name : string; Value : PDUValue }.

(** What the library and the network behind it do when a method is called
    on the session.  [Connect] and [Get] have pointer receivers: each takes
    the session as it stands and returns it as the call leaves it, with an
    error or [nil] ([None]) for [Connect] and an error or the variables of
    the response packet for [Get].  [Close] is the method of the connection
    and returns an error or [nil]. *)
Record Network := {
  Connect : GoSNMP -> GoSNMP * option error;
  Get : GoSNMP -> list string -> GoSNMP * (error + list SnmpPDU);
  Close : GoSNMP -> option error
}.

End gosnmp.

(** ** The package's types *)

Module Authentication.
Record t := { Active : bool; Protocol : string; Passphrase : string }.
End Authentication.

Module Privacy.
Record t := { Active : bool; Protocol : string; Passphrase : string }.
End Privacy.

Module SNMP.
Record t := {
  Version : string;
  Community : string;
  Authentication : Authentication.t;
  Privacy : Privacy.t
}.
End SNMP.

Module Version.
Record t := { RouterOS : string; Bootloader : string; Latest : string }.
End Version.

Module Device.
Record t := {
  Reached : bool;
  Host : string;
  Model : string;
  Name : string;
  SNMP : SNMP.t;
  Version : Version.t
}.

(** Assignments to a field through the [*Device] receiver. *)
Definition setReached (b : bool) (d : t) : t :=
  {| Reached := b; Host := Host d; Model := Model d; Name := Name d;
     SNMP := SNMP d; Version := Version d |}.
Definition setModel (m : string) (d : t) : t :=
  {| Reached := Reached d; Host := Host d; Model := m; Name := Name d;
     SNMP := SNMP d; Version := Version d |}.
Definition setName (n : string) (d : t) : t :=
  {| Reached := Reached d; Host := Host d; Model := Model d; Name := n;
     SNMP := SNMP d; Version := Version d |}.
Definition setVersion (v : Version.t) (d : t) : t :=
  {| Reached := Reached d; Host := Host d; Model := Model d; Name := Name d;
     SNMP := SNMP d; Version := v |}.
Definition setRouterOS (x : string) (d : t) : t :=
  setVersion {| Version.RouterOS := x;
                Version.Bootloader := Version.Bootloader (Version d);
                Version.Latest := Version.Latest (Version d) |} d.
Definition setBootloader (x : string) (d : t) : t :=
  setVersion {| Version.RouterOS := Version.RouterOS (Version d);
                Version.Bootloader := x;
                Version.Latest := Version.Latest (Version d) |} d.
Definition setLatest (x : string) (d : t) : t :=
  setVersion {| Version.RouterOS := Version.RouterOS (Version d);
                Version.Bootloader := Version.Bootloader (Version d);
                Version.Latest := x |} d.
End Device.

(** [type Devices []Device]: a slice, [None] when it is [nil]. *)
Definition Devices := option (list Device.t).

(** ** [GetProtocol] *)

(** [func (auth *Authentication) GetProtocol() gosnmp.SnmpV3AuthProtocol] *)
Definition Authentication_GetProtocol (auth : Authentication.t)
  : gosnmp.SnmpV3AuthProtocol :=
  if Authentication.Protocol auth =? "SHA1" then gosnmp.SHA
  else if Authentication.Protocol auth =? "MD5" then gosnmp.MD5
  else gosnmp.SHA.

(** [func (priv *Privacy) GetProtocol() gosnmp.SnmpV3PrivProtocol] *)
Definition Privacy_GetProtocol (priv : Privacy.t) : gosnmp.SnmpV3PrivProtocol :=
  if Privacy.Protocol priv =? "DES" then gosnmp.DES
  else if Privacy.Protocol priv =? "AES" then gosnmp.AES
  else gosnmp.DES.

(** ** [SNMPConfigure]

    The function writes [gosnmp.Default] in place; here it takes the session
    as it finds it and returns it as it leaves it. *)

Definition configureVersion (version : string) (s : gosnmp.GoSNMP)
  : gosnmp.GoSNMP :=
  if version =? "2c" then
    {| gosnmp.Target := gosnmp.Target s;
       gosnmp.Community := gosnmp.Community s;
       gosnmp.Version := gosnmp.Version2c;
       gosnmp.Timeout := gosnmp.Timeout s;
       gosnmp.SecurityModel := gosnmp.SecurityModel s;
       gosnmp.MsgFlags := gosnmp.MsgFlags s;
       gosnmp.SecurityParameters := gosnmp.SecurityParameters s |}
  else if version =? "3" then
    {| gosnmp.Target := gosnmp.Target s;
       gosnmp.Community := gosnmp.Community s;
       gosnmp.Version := gosnmp.Version3;
       gosnmp.Timeout := gosnmp.Timeout s;
       gosnmp.SecurityModel := gosnmp.UserSecurityModel;
       gosnmp.MsgFlags := gosnmp.AuthPriv;
       gosnmp.SecurityParameters := gosnmp.SecurityParameters s |}
  else s.

(** The bundle built when a block is active: a zero value but for the user
    name, then filled per active block. *)
Definition usmSecurityParameters (snmp : SNMP.t) : gosnmp.UsmSecurityParameters :=
  let auth := SNMP.Authentication snmp in
  let priv := SNMP.Privacy snmp in
  {| gosnmp.UserName := SNMP.Community snmp;
     gosnmp.AuthenticationProtocol :=
       if Authentication.Active auth then Authentication_GetProtocol auth else 0%N;
     gosnmp.AuthenticationPassphrase :=
       if Authentication.Active auth then Authentication.Passphrase auth
       else EmptyString;
     gosnmp.PrivacyProtocol :=
       if Privacy.Active priv then Privacy_GetProtocol priv else 0%N;
     gosnmp.PrivacyPassphrase :=
       if Privacy.Active priv then Privacy.Passphrase priv else EmptyString |}.

(** [func (device *Device) SNMPConfigure()] *)
Definition SNMPConfigure (device : Device.t) (s : gosnmp.GoSNMP) : gosnmp.GoSNMP :=
  let snmp := Device.SNMP device in
  let s1 :=
    {| gosnmp.Target := Device.Host device;
       gosnmp.Community := SNMP.Community snmp;
       gosnmp.Version := gosnmp.Version s;
       gosnmp.Timeout := (3 * gosnmp.Second)%Z;
       gosnmp.SecurityModel := gosnmp.SecurityModel s;
       gosnmp.MsgFlags := gosnmp.MsgFlags s;
       gosnmp.SecurityParameters := gosnmp.SecurityParameters s |} in
  let s2 := configureVersion (SNMP.Version snmp) s1 in
  if Authentication.Active (SNMP.Authentication snmp)
     || Privacy.Active (SNMP.Privacy snmp)
  then
    {| gosnmp.Target := gosnmp.Target s2;
       gosnmp.Community := gosnmp.Community s2;
       gosnmp.Version := gosnmp.Version s2;
       gosnmp.Timeout := gosnmp.Timeout s2;
       gosnmp.SecurityModel := gosnmp.SecurityModel s2;
       gosnmp.MsgFlags := gosnmp.MsgFlags s2;
       gosnmp.SecurityParameters := Some (usmSecurityParameters snmp) |}
  else s2.

(** ** [GetDevice] *)

(** What a call leaves behind besides the record: calls into the library,
    lines on standard output and lines of the logger, in order. *)
Inductive Event :=
| EvConnect (target : string)
| EvGet (target : string) (oids : list string)
| EvClose
| EvPrintln (line : string)
| EvLog (line : string).

(** A call returns its [error] ([None] is [nil]) or panics. *)
Inductive Outcome :=
| Return (err : option string)
| Panic.

Record Poll := {
  session : gosnmp.GoSNMP;
  device : Device.t;
  outcome : Outcome;
  events : list Event
}.

Definition oids : list string :=
  [".1.3.6.1.4.1.14988.1.1.4.4.0"; ".1.3.6.1.4.1.14988.1.1.7.4.0";
   ".1.3.6.1.4.1.14988.1.1.7.7.0"; ".1.3.6.1.2.1.1.1.0"; ".1.3.6.1.2.1.1.5.0"].

(** [variable.Value.([]byte)]: the unchecked type assertion, [None] where Go
    panics. *)
Definition assertBytes (v : gosnmp.PDUValue) : option string :=
  match v with
  | gosnmp.Bytes b => Some b
  | _ => None
  end.

(** The [switch variable.Name] of the loop body: the record after the
    assignment and what was printed, or [None] when the assertion of the
    selected case panics. *)
Definition switchVariable (d : Device.t) (variable : gosnmp.SnmpPDU)
  : option (Device.t * list Event) :=
  let name := gosnmp.Name variable in
  let value := gosnmp.Value variable in
  if name =? ".1.3.6.1.4.1.14988.1.1.4.4.0" then
    match assertBytes value with
    | Some b => Some (Device.setRouterOS b d, [])
    | None => None
    end
  else if name =? ".1.3.6.1.4.1.14988.1.1.7.7.0" then
    match assertBytes value with
    | Some b => Some (Device.setLatest b d, [])
    | None => None
    end
  else if name =? ".1.3.6.1.4.1.14988.1.1.7.4.0" then
    match assertBytes value with
    | Some b => Some (Device.setBootloader b d, [])
    | None => None
    end
  else if name =? ".1.3.6.1.2.1.1.1.0" then
    match assertBytes value with
    | Some b => Some (Device.setModel (strings.Replace b "RouterOS" EmptyString 1) d, [])
    | None => None
    end
  else if name =? ".1.3.6.1.2.1.1.5.0" then
    match assertBytes value with
    | Some b => Some (Device.setName b d, [])
    | None => None
    end
  else
    match assertBytes value with
    | Some b => Some (d, [EvPrintln (name ++ " : " ++ b)])
    | None => None
    end.

(** [for _, variable := range result.Variables] (the guard
    [len(result.Variables) > 0] around it only skips an empty loop): the
    record as the loop leaves it (also when it panics half way: the receiver is a pointer),
    what was printed, and whether the loop panicked. *)
Fixpoint rangeVariables (d : Device.t) (variables : list gosnmp.SnmpPDU)
  : Device.t * list Event * bool :=
  match variables with
  | [] => (d, [], false)
  | variable :: rest =>
      match switchVariable d variable with
      | None => (d, [], true)
      | Some (d1, printed) =>
          let '(d2, printed', panicked) := rangeVariables d1 rest in
          (d2, (printed ++ printed')%list, panicked)
      end
  end.

(** The deferred function: it runs on every way out once [Connect] has
    succeeded, and its error is only logged. *)
Definition deferredClose (net : gosnmp.Network) (s : gosnmp.GoSNMP) : list Event :=
  match gosnmp.Close net s with
  | Some err => [EvClose; EvLog ("Error closing connection: " ++ err)]
  | None => [EvClose]
  end.

(** [func (device *Device) GetDevice() error] *)
Definition GetDevice (net : gosnmp.Network) (s0 : gosnmp.GoSNMP) (d : Device.t)
  : Poll :=
  let s := SNMPConfigure d s0 in
  let (s1, err) := gosnmp.Connect net s in
  match err with
  | Some err =>
      {| session := s1; device := d;
         outcome := Return (Some ("fehler beim Verbinden: " ++ err));
         events := [EvConnect (gosnmp.Target s)] |}
  | None =>
      let (s2, result) := gosnmp.Get net s1 oids in
      match result with
      | inl err2 =>
          {| session := s2; device := d;
             outcome := Return (Some (Device.Host d ++ " Fehler bei der SNMP-Anfrage: " ++ err2));
             events := ([EvConnect (gosnmp.Target s); EvGet (gosnmp.Target s1) oids]
                        ++ deferredClose net s2)%list |}
      | inr variables =>
          let '(d', printed, panicked) :=
            rangeVariables (Device.setReached true d) variables in
          {| session := s2; device := d';
             outcome := if panicked then Panic else Return None;
             events := ([EvConnect (gosnmp.Target s); EvGet (gosnmp.Target s1) oids]
                        ++ printed ++ deferredClose net s2)%list |}
      end
  end.

(** What the two library calls of a poll return: the error of [Connect], the
    session as [Connect] leaves it, and the result of [Get] on that
    session. *)
Definition connectResult (net : gosnmp.Network) (s0 : gosnmp.GoSNMP) (d : Device.t)
  : option gosnmp.error :=
  snd (gosnmp.Connect net (SNMPConfigure d s0)).

Definition connected (net : gosnmp.Network) (s0 : gosnmp.GoSNMP) (d : Device.t)
  : gosnmp.GoSNMP :=
  fst (gosnmp.Connect net (SNMPConfigure d s0)).

Definition getResult (net : gosnmp.Network) (s0 : gosnmp.GoSNMP) (d : Device.t)
  : gosnmp.error + list gosnmp.SnmpPDU :=
  snd (gosnmp.Get net (connected net s0 d) oids).

(** The caller's loop of the package documentation,
    [for i := range devices { _ = devices[i].GetDevice() }]: each record is
    polled in place on the shared session and the error is dropped; a panic
    ends the loop with the remaining records untouched. *)
Fixpoint pollAll (net : gosnmp.Network) (s : gosnmp.GoSNMP) (ds : list Device.t)
  : gosnmp.GoSNMP * list Device.t * bool :=
  match ds with
  | [] => (s, [], false)
  | d :: rest =>
      let p := GetDevice net s d in
      match outcome p with
      | Panic => (session p, device p :: rest, true)
      | Return _ =>
          let '(s', rest', panicked) := pollAll net (session p) rest in
          (s', device p :: rest', panicked)
      end
  end.

(** ** Package [encoding/json] (what [json.Marshal] does on the package's types)

    [Marshal] writes a struct as an object of its exported fields in
    declaration order, under their names, without white space; a field tagged
    [json:"-"] is left out; a [nil] slice is [null]. *)
Module json.

Local Open Scope N_scope.

Definition quote : string := String (ascii_of_nat 34) EmptyString.

Definition hex (n : N) : string :=
  strings.take 1 (strings.drop (N.to_nat n) "0123456789abcdef").

(** A byte below [utf8.RuneSelf]: quote and backslash are escaped, the
    control characters with a short form take it (backspace and form feed
    have one since Go 1.22), the other control characters and (HTML escaping
    is on) [<], [>], [&] become [\u00XX]. *)
Definition escapeByte (c : ascii) : string :=
  let b := N_of_ascii c in
  if (b =? 92) || (b =? 34) then "\" ++ String c EmptyString
  else if b =? 8 then "\b"
  else if b =? 12 then "\f"
  else if b =? 10 then "\n"
  else if b =? 13 then "\r"
  else if b =? 9 then "\t"
  else if (b <? 32) || (b =? 60) || (b =? 62) || (b =? 38)
       then "\u00" ++ hex (b / 16) ++ hex (b mod 16)
  else String c EmptyString.

Definition inRange (lo hi : N) (c : ascii) : bool :=
  (lo <=? N_of_ascii c) && (N_of_ascii c <=? hi).

(** The continuation bytes of an encoding: [n] bytes in [0x80..0xBF]. *)
Fixpoint continuation (n : nat) (s : string) : bool :=
  match n, s with
  | O, _ => true
  | S n', String c s' => inRange 128 191 c && continuation n' s'
  | S _, EmptyString => false
  end.

(** [utf8.DecodeRuneInString]: the size of the encoding at the head of a
    string that starts with a byte from [0x80] on, [None] for
    [(RuneError, 1)]. *)
Definition runeSize (s : string) : option nat :=
  match s with
  | String c0 (String c1 rest) =>
      let b0 := N_of_ascii c0 in
      let sized (lo hi : N) (more : nat) :=
        if inRange lo hi c1 && continuation more rest
        then Some (S (S more)) else None in
      if (194 <=? b0) && (b0 <=? 223) then sized 128 191 0%nat
      else if b0 =? 224 then sized 160 191 1%nat
      else if b0 =? 237 then sized 128 159 1%nat
      else if (225 <=? b0) && (b0 <=? 239) then sized 128 191 1%nat
      else if b0 =? 240 then sized 144 191 2%nat
      else if (241 <=? b0) && (b0 <=? 243) then sized 128 191 2%nat
      else if b0 =? 244 then sized 128 143 2%nat
      else None
  | _ => None
  end.

Definition lineSeparator : string :=
  String (ascii_of_nat 226) (String (ascii_of_nat 128) (String (ascii_of_nat 168) EmptyString)).
Definition paragraphSeparator : string :=
  String (ascii_of_nat 226) (String (ascii_of_nat 128) (String (ascii_of_nat 169) EmptyString)).

(** The loop of the string encoder; [fuel] bounds the steps, each of which
    consumes at least one byte. *)
Fixpoint appendRunes (fuel : nat) (src : string) : string :=
  match fuel, src with
  | S fuel', String c rest =>
      if N_of_ascii c <? 128 then escapeByte c ++ appendRunes fuel' rest
      else
        match runeSize src with
        | None => "\ufffd" ++ appendRunes fuel' rest
        | Some size =>
            let r := strings.take size src in
            (if String.eqb r lineSeparator then "\u2028"
             else if String.eqb r paragraphSeparator then "\u2029"
             else r) ++ appendRunes fuel' (strings.drop size src)
        end
  | _, _ => EmptyString
  end.

(** A Go string as a JSON string. *)
Definition appendString (src : string) : string :=
  quote ++ appendRunes (String.length src) src ++ quote.

Definition boolean (b : bool) : string := if b then "true" else "false".

(** One member of an object: ["name":value]. *)
Definition member (name value : string) : string :=
  quote ++ name ++ quote ++ ":" ++ value.

(** The elements of an array, comma separated. *)
Fixpoint elements (l : list string) : string :=
  match l with
  | [] => EmptyString
  | [x] => x
  | x :: rest => x ++ "," ++ elements rest
  end.

End json.

(** ** [ResultJson] *)

(** [Authentication]: [Protocol] and [Passphrase] are tagged [json:"-"]. *)
Definition marshalAuthentication (a : Authentication.t) : string :=
  "{" ++ json.member "Active" (json.boolean (Authentication.Active a)) ++ "}".

(** [Privacy]: [Protocol] and [Passphrase] are tagged [json:"-"]. *)
Definition marshalPrivacy (p : Privacy.t) : string :=
  "{" ++ json.member "Active" (json.boolean (Privacy.Active p)) ++ "}".

(** [SNMP]: [Community] is tagged [json:"-"]. *)
Definition marshalSNMP (s : SNMP.t) : string :=
  "{" ++ json.member "Version" (json.appendString (SNMP.Version s))
  ++ "," ++ json.member "Authentication" (marshalAuthentication (SNMP.Authentication s))
  ++ "," ++ json.member "Privacy" (marshalPrivacy (SNMP.Privacy s)) ++ "}".

Definition marshalVersion (v : Version.t) : string :=
  "{" ++ json.member "RouterOS" (json.appendString (Version.RouterOS v))
  ++ "," ++ json.member "Bootloader" (json.appendString (Version.Bootloader v))
  ++ "," ++ json.member "Latest" (json.appendString (Version.Latest v)) ++ "}".

Definition marshalDevice (d : Device.t) : string :=
  "{" ++ json.member "Reached" (json.boolean (Device.Reached d))
  ++ "," ++ json.member "Host" (json.appendString (Device.Host d))
  ++ "," ++ json.member "Model" (json.appendString (Device.Model d))
  ++ "," ++ json.member "Name" (json.appendString (Device.Name d))
  ++ "," ++ json.member "SNMP" (marshalSNMP (Device.SNMP d))
  ++ "," ++ json.member "Version" (marshalVersion (Device.Version d)) ++ "}".

(** [func (devices *Devices) ResultJson() string].  [json.Marshal] has no
    error on these types, so the logging branch is never taken. *)
Definition ResultJson (devices : Devices) : string :=
  match devices with
  | None => "null"
  | Some ds => "[" ++ json.elements (map marshalDevice ds) ++ "]"
  end.

(** ** Reading a response *)

(** Every value of the response is a byte slice. *)
Definition allBytes (variables : list gosnmp.SnmpPDU) : bool :=
  forallb (fun v => match gosnmp.Value v with gosnmp.Bytes _ => true | _ => false end)
          variables.

(** The value of the last variable of the response that carries [name]. *)
Fixpoint lastValue (name : string) (variables : list gosnmp.SnmpPDU)
  : option gosnmp.PDUValue :=
  match variables with
  | [] => None
  | v :: rest =>
      match lastValue name rest with
      | Some x => Some x
      | None => if gosnmp.Name v =? name then Some (gosnmp.Value v) else None
      end
  end.

(** The text a field holds after the loop: that of the last byte value
    under [name], or what it held before. *)
Definition assigned (name : string) (variables : list gosnmp.SnmpPDU)
  (before : string) (decode : string -> string) : string :=
  match lastValue name variables with
  | Some (gosnmp.Bytes b) => decode b
  | _ => before
  end.

(** The variables whose name is one of the five requested. *)
Definition knownOnly (variables : list gosnmp.SnmpPDU) : list gosnmp.SnmpPDU :=
  filter (fun v => existsb (String.eqb (gosnmp.Name v)) oids) variables.

(** The batch request of a poll returned without an error: the session was
    opened and [Get] answered. *)
Definition batchReturned (net : gosnmp.Network) (s0 : gosnmp.GoSNMP) (d : Device.t)
  : bool :=
  match connectResult net s0 d with
  | Some _ => false
  | None =>
      match getResult net s0 d with
      | inl _ => false
      | inr _ => true
      end
  end.

(** ** Secret and public fields *)

(** Two records agree on every field that is not a secret: they may differ
    in the community string and in the algorithm name and passphrase of the
    authentication and privacy blocks only. *)
Definition samePublic (d d' : Device.t) : Prop :=
  Device.Reached d = Device.Reached d' /\
  Device.Host d = Device.Host d' /\
  Device.Model d = Device.Model d' /\
  Device.Name d = Device.Name d' /\
  SNMP.Version (Device.SNMP d) = SNMP.Version (Device.SNMP d') /\
  Authentication.Active (SNMP.Authentication (Device.SNMP d))
  = Authentication.Active (SNMP.Authentication (Device.SNMP d')) /\
  Privacy.Active (SNMP.Privacy (Device.SNMP d))
  = Privacy.Active (SNMP.Privacy (Device.SNMP d')) /\
  Device.Version d = Device.Version d'.

(** ** Reading the events of a poll *)

(** How often the connection was closed. *)
Definition closes (evs : list Event) : nat :=
  length (filter (fun e => match e with EvClose => true | _ => false end) evs).

(** How many batch requests were issued. *)
Definition requests (evs : list Event) : nat :=
  length (filter (fun e => match e with EvGet _ _ => true | _ => false end) evs).

(** The lines on standard output. *)
Definition printedLines (evs : list Event) : list string :=
  flat_map (fun e => match e with EvPrintln line => [line] | _ => [] end) evs.

(** The lines the loop prints for an answer of byte values: one per
    variable under an address that was not requested, in the order of the
    answer. *)
Definition unknownLines (variables : list gosnmp.SnmpPDU) : list string :=
  flat_map (fun v =>
              if existsb (String.eqb (gosnmp.Name v)) oids then []
              else match gosnmp.Value v with
                   | gosnmp.Bytes b => [gosnmp.Name v ++ " : " ++ b]
                   | _ => []
                   end)
           variables.

(** A network that differs from [net] in what [Close] returns only. *)
Definition withClose (net : gosnmp.Network)
  (close : gosnmp.GoSNMP -> option gosnmp.error) : gosnmp.Network :=
  {| gosnmp.Connect := gosnmp.Connect net;
     gosnmp.Get := gosnmp.Get net;
     gosnmp.Close := close |}.

(** ** Concrete inputs *)

Definition noAuthentication : Authentication.t :=
  {| Authentication.Active := false;
     Authentication.Protocol := EmptyString;
     Authentication.Passphrase := EmptyString |}.

Definition noPrivacy : Privacy.t :=
  {| Privacy.Active := false;
     Privacy.Protocol := EmptyString;
     Privacy.Passphrase := EmptyString |}.

(** A record as the configuration loader leaves it: only the host and the
    SNMP block are set. *)
Definition descriptor (host version community : string)
  (auth : Authentication.t) (priv : Privacy.t) : Device.t :=
  {| Device.Reached := false;
     Device.Host := host;
     Device.Model := EmptyString;
     Device.Name := EmptyString;
     Device.SNMP := {| SNMP.Version := version; SNMP.Community := community;
                       SNMP.Authentication := auth; SNMP.Privacy := priv |};
     Device.Version := {| Version.RouterOS := EmptyString;
                          Version.Bootloader := EmptyString;
                          Version.Latest := EmptyString |} |}.

(** The two devices of the configuration example in the package
    documentation. *)
Definition readmeDevice1 : Device.t :=
  descriptor "myhost.xxxxxxxx.xyz" "3" "public"
    {| Authentication.Active := true; Authentication.Protocol := "SHA1";
       Authentication.Passphrase := "MyVerySecurePassphrase" |}
    {| Privacy.Active := true; Privacy.Protocol := "DES";
       Privacy.Passphrase := "MyVerySecurePassphrase" |}.

Definition readmeDevice2 : Device.t :=
  descriptor "myhost2.xxxxxxxx.xyz" "2" "public" noAuthentication noPrivacy.

(** A community device whose authentication block is switched on. *)
Definition v2cWithAuthentication : Device.t :=
  descriptor "192.0.2.10" "2c" "public"
    {| Authentication.Active := true; Authentication.Protocol := "MD5";
       Authentication.Passphrase := "secret" |}
    noPrivacy.

(** A version 3 device with neither block switched on. *)
Definition v3Plain : Device.t :=
  descriptor "192.0.2.7" "3" "monitor" noAuthentication noPrivacy.

(** A device whose community string is also part of its host name. *)
Definition publicHost : Device.t :=
  descriptor "public.example.net" "2c" "public" noAuthentication noPrivacy.

(** Algorithm names the package does not know. *)
Definition sha256Authentication : Authentication.t :=
  {| Authentication.Active := true; Authentication.Protocol := "SHA256";
     Authentication.Passphrase := "secret" |}.

Definition aes256Privacy : Privacy.t :=
  {| Privacy.Active := true; Privacy.Protocol := "AES256";
     Privacy.Passphrase := "secret" |}.

(** A network on which no session can be opened: [Connect] fails with
    [connectError]. *)
Definition netConnectFails (connectError : string) : gosnmp.Network :=
  {| gosnmp.Connect := fun s => (s, Some connectError);
     gosnmp.Get := fun s _ => (s, inl "unreachable");
     gosnmp.Close := fun _ => None |}.

(** A network that answers every request with [variables]. *)
Definition netAnswers (variables : list gosnmp.SnmpPDU) : gosnmp.Network :=
  {| gosnmp.Connect := fun s => (s, None);
     gosnmp.Get := fun s _ => (s, inr variables);
     gosnmp.Close := fun _ => None |}.

Definition octets (name text : string) : gosnmp.SnmpPDU :=
  {| gosnmp.Name := name; gosnmp.Value := gosnmp.Bytes text |}.

(** A full answer of a router. *)
Definition fullAnswer : list gosnmp.SnmpPDU :=
  [octets ".1.3.6.1.4.1.14988.1.1.4.4.0" "7.15.3";
   octets ".1.3.6.1.4.1.14988.1.1.7.4.0" "7.15.2";
   octets ".1.3.6.1.4.1.14988.1.1.7.7.0" "7.16";
   octets ".1.3.6.1.2.1.1.1.0" "RouterOS RB1100";
   octets ".1.3.6.1.2.1.1.5.0" "core-gw"].

(** The same answer from a router that has no latest-version object: the
    variable comes back with a [nil] value. *)
Definition answerWithoutLatest : list gosnmp.SnmpPDU :=
  [octets ".1.3.6.1.4.1.14988.1.1.4.4.0" "7.15.3";
   octets ".1.3.6.1.4.1.14988.1.1.7.4.0" "7.15.2";
   {| gosnmp.Name := ".1.3.6.1.4.1.14988.1.1.7.7.0"; gosnmp.Value := gosnmp.Nil |};
   octets ".1.3.6.1.2.1.1.1.0" "RouterOS RB1100";
   octets ".1.3.6.1.2.1.1.5.0" "core-gw"].

(** A record that an earlier scan found reachable. *)
Definition reachedBefore : Device.t := Device.setReached true publicHost.

(** [publicHost] with every secret changed. *)
Definition publicHostOtherSecrets : Device.t :=
  descriptor "public.example.net" "2c" "private"
    {| Authentication.Active := false; Authentication.Protocol := "MD5";
       Authentication.Passphrase := "one" |}
    {| Privacy.Active := false; Privacy.Protocol := "AES";
       Privacy.Passphrase := "two" |}.

(** A version 3 device that authenticates but does not encrypt. *)
Definition v3AuthOnly : Device.t :=
  descriptor "192.0.2.8" "3" "monitor"
    {| Authentication.Active := true; Authentication.Protocol := "MD5";
       Authentication.Passphrase := "secret" |}
    noPrivacy.

(** A network on which sessions open and every request fails with
    [queryError]. *)
Definition netQueryFails (queryError : string) : gosnmp.Network :=
  {| gosnmp.Connect := fun s => (s, None);
     gosnmp.Get := fun s _ => (s, inl queryError);
     gosnmp.Close := fun _ => None |}.

(** An answer with the name only. *)
Definition nameOnlyAnswer : list gosnmp.SnmpPDU :=
  [octets ".1.3.6.1.2.1.1.5.0" "core-gw"].

(** A full answer in another order, with the name given twice and a
    variable that was not asked for. *)
Definition shuffledAnswer : list gosnmp.SnmpPDU :=
  [octets ".1.3.6.1.2.1.1.5.0" "old-name";
   octets ".1.3.6.1.2.1.1.1.0" "RouterOS RB1100";
   octets ".1.3.6.1.2.1.1.3.0" "4711";
   octets ".1.3.6.1.4.1.14988.1.1.7.7.0" "7.16";
   octets ".1.3.6.1.4.1.14988.1.1.7.4.0" "7.15.2";
   octets ".1.3.6.1.2.1.1.5.0" "core-gw";
   octets ".1.3.6.1.4.1.14988.1.1.4.4.0" "7.15.3"].

(** A network that answers every request with [variables] and whose
    [Connect] writes the session as the library does for version 3: it adds
    the Reportable bit to the message flags. *)
Definition netReportable (variables : list gosnmp.SnmpPDU) : gosnmp.Network :=
  {| gosnmp.Connect := fun s =>
       (if N.eqb (gosnmp.Version s) gosnmp.Version3
        then {| gosnmp.Target := gosnmp.Target s;
                gosnmp.Community := gosnmp.Community s;
                gosnmp.Version := gosnmp.Version s;
                gosnmp.Timeout := gosnmp.Timeout s;
                gosnmp.SecurityModel := gosnmp.SecurityModel s;
                gosnmp.MsgFlags := N.lor (gosnmp.MsgFlags s) gosnmp.Reportable;
                gosnmp.SecurityParameters := gosnmp.SecurityParameters s |}
        else s, None);
     gosnmp.Get := fun s _ => (s, inr variables);
     gosnmp.Close := fun _ => None |}.

(** An answer in which a [nil] value stands in front of the description. *)
Definition answerNilBeforeDescription : list gosnmp.SnmpPDU :=
  [{| gosnmp.Name := ".1.3.6.1.4.1.14988.1.1.7.7.0"; gosnmp.Value := gosnmp.Nil |};
   octets ".1.3.6.1.2.1.1.1.0" "RouterOS RB1100"].

(** An answer in which a [nil] value stands behind the description. *)
Definition answerNilAfterDescription : list gosnmp.SnmpPDU :=
  [octets ".1.3.6.1.4.1.14988.1.1.4.4.0" "7.15.3";
   octets ".1.3.6.1.2.1.1.1.0" "RouterOS RB1100";
   {| gosnmp.Name := ".1.3.6.1.2.1.1.5.0"; gosnmp.Value := gosnmp.Nil |}].

(** * Properties *)

(** ** Strings *)
Section StringFacts.

Lemma append_assoc (a b c : string) : (a ++ b) ++ c = a ++ b ++ c.
Proof. induction a as [|x a IH]; simpl; [reflexivity | now rewrite IH]. Qed.

Lemma append_empty_r (a : string) : a ++ EmptyString = a.
Proof. induction a as [|x a IH]; simpl; [reflexivity | now rewrite IH]. Qed.

Lemma append_inv_length (x y u v : string) :
  String.length x = String.length y -> x ++ u = y ++ v -> x = y /\ u = v.
Proof.
  revert y; induction x as [|c x IH]; intros [|c' y] Hlen Heq;
    simpl in *; try discriminate.
  - now split.
  - injection Heq as -> Heq. injection Hlen as Hlen.
    destruct (IH y Hlen Heq) as [-> ->]. now split.
Qed.

Lemma prefix_append (p t : string) : String.prefix p (p ++ t) = true.
Proof.
  induction p as [|c p IH]; simpl.
  - now destruct t.
  - destruct (ascii_dec c c) as [_|N]; [exact IH | now elim N].
Qed.

Lemma prefix_drop (p s : string) :
  String.prefix p s = true -> s = p ++ strings.drop (String.length p) s.
Proof.
  revert s; induction p as [|c p IH]; intros s H.
  - reflexivity.
  - destruct s as [|c' s]; simpl in H; [discriminate|].
    destruct (ascii_dec c c') as [->|]; [|discriminate].
    simpl. f_equal. now apply IH.
Qed.

Lemma Cut_unfold (s sep : string) :
  strings.Cut s sep =
  if strings.HasPrefix s sep
  then Some (EmptyString, strings.drop (String.length sep) s)
  else match s with
       | EmptyString => None
       | String c s' =>
           match strings.Cut s' sep with
           | Some (before, after) => Some (String c before, after)
           | None => None
           end
       end.
Proof. destruct s; reflexivity. Qed.

(** A cut splits the string around the separator... *)
Lemma Cut_Some (s sep before after : string) :
  strings.Cut s sep = Some (before, after) -> s = before ++ sep ++ after.
Proof.
  revert before after; induction s as [|c s IH]; intros b a;
    rewrite Cut_unfold; unfold strings.HasPrefix;
    destruct (String.prefix sep _) eqn:E; intros H;
    try (injection H as <- <-; now apply prefix_drop); try discriminate.
  destruct (strings.Cut s sep) as [[b' a']|]; [|discriminate].
  injection H as <- <-. simpl. f_equal. now apply IH.
Qed.

(** ... at its first instance... *)
Lemma Cut_first (s sep before after : string) :
  strings.Cut s sep = Some (before, after) ->
  forall p q, s = p ++ sep ++ q -> String.length before <= String.length p.
Proof.
  revert before after; induction s as [|c s IH]; intros b a;
    rewrite Cut_unfold; unfold strings.HasPrefix;
    destruct (String.prefix sep _) eqn:E; intros H p q Hs;
    try (injection H as <- <-; simpl; lia); try discriminate.
  destruct (strings.Cut s sep) as [[b' a']|] eqn:Hc; [|discriminate].
  injection H as <- <-.
  destruct p as [|c' p]; simpl in Hs.
  - rewrite Hs, prefix_append in E. discriminate.
  - injection Hs as _ Hs. simpl. apply le_n_S. eapply IH; eauto.
Qed.

(** ... and fails only when there is none. *)
Lemma Cut_None (s sep : string) :
  strings.Cut s sep = None -> forall p q, s <> p ++ sep ++ q.
Proof.
  induction s as [|c s IH]; rewrite Cut_unfold; unfold strings.HasPrefix;
    destruct (String.prefix sep _) eqn:E; intros H p q Hs; try discriminate.
  - destruct p; simpl in Hs; [|discriminate].
    rewrite Hs, prefix_append in E. discriminate.
  - destruct (strings.Cut s sep) as [[b' a']|] eqn:Hc; [discriminate|].
    destruct p as [|c' p]; simpl in Hs.
    + rewrite Hs, prefix_append in E. discriminate.
    + injection Hs as _ Hs. now apply (IH eq_refl p q).
Qed.

Lemma Contains_iff (s substr : string) :
  strings.Contains s substr = true <-> exists p q, s = p ++ substr ++ q.
Proof.
  unfold strings.Contains.
  destruct (strings.Cut s substr) as [[b a]|] eqn:E; split; intros H.
  - exists b, a. now apply Cut_Some.
  - reflexivity.
  - discriminate.
  - destruct H as (p & q & H). now elim (Cut_None _ _ E p q).
Qed.

Lemma Contains_false_iff (s substr : string) :
  strings.Contains s substr = false <-> forall p q, s <> p ++ substr ++ q.
Proof.
  split.
  - intros H p q Hs.
    assert (strings.Contains s substr = true) by (apply Contains_iff; eauto).
    congruence.
  - intros H. destruct (strings.Contains s substr) eqn:E; [|reflexivity].
    apply Contains_iff in E. destruct E as (p & q & E). now elim (H p q).
Qed.

Lemma Contains_middle (p substr q : string) :
  strings.Contains (p ++ substr ++ q) substr = true.
Proof. apply Contains_iff. eauto. Qed.

Lemma Contains_append_l (a b substr : string) :
  strings.Contains a substr = true -> strings.Contains (a ++ b) substr = true.
Proof.
  rewrite !Contains_iff. intros (p & q & ->). exists p, (q ++ b).
  now rewrite !append_assoc.
Qed.

Lemma Contains_append_r (a b substr : string) :
  strings.Contains b substr = true -> strings.Contains (a ++ b) substr = true.
Proof.
  rewrite !Contains_iff. intros (p & q & ->). exists (a ++ p), q.
  now rewrite !append_assoc.
Qed.

Lemma Contains_refl (s : string) : strings.Contains s s = true.
Proof.
  apply Contains_iff. exists EmptyString, EmptyString.
  simpl. now rewrite append_empty_r.
Qed.

(** Replacing once leaves a string without the old text alone... *)
Lemma Replace_once_absent (s old new : string) :
  (forall p q, s <> p ++ old ++ q) -> strings.Replace s old new 1 = s.
Proof.
  intros H. simpl. destruct (strings.Cut s old) as [[b a]|] eqn:E; [|reflexivity].
  now elim (H b a (Cut_Some _ _ _ _ E)).
Qed.

(** ... and rewrites exactly the leftmost instance otherwise. *)
Lemma Replace_once_first (pre old post new : string) :
  (forall p q, pre ++ old ++ post = p ++ old ++ q ->
               String.length pre <= String.length p) ->
  strings.Replace (pre ++ old ++ post) old new 1 = pre ++ new ++ post.
Proof.
  intros Hmin. simpl.
  destruct (strings.Cut (pre ++ old ++ post) old) as [[b a]|] eqn:E.
  - pose proof (Cut_Some _ _ _ _ E) as Hs.
    pose proof (Cut_first _ _ _ _ E pre post eq_refl) as Hle.
    pose proof (Hmin b a Hs) as Hge.
    destruct (append_inv_length pre b (old ++ post) (old ++ a)) as [<- Hrest];
      [lia | exact Hs |].
    destruct (append_inv_length old old post a eq_refl Hrest) as [_ <-].
    reflexivity.
  - now elim (Cut_None _ _ E pre post).
Qed.

End StringFacts.

(** ** Algorithm names and the session *)

Ltac string_cases :=
  repeat match goal with
         | |- context [String.eqb ?a ?b] =>
             let E := fresh "E" in
             destruct (String.eqb_spec a b) as [E|E]; try congruence
         end.

(** C7: an authentication block whose algorithm name is none of the known
    ones ("SHA1", "MD5") resolves to SHA, and a privacy block whose name is
    none of the known ones ("DES", "AES") resolves to DES.  Both functions are
    total, the values are not the zero value of their types, and the two
    defaults are different constants of the library. *)
Theorem GetProtocol_default (auth : Authentication.t) (priv : Privacy.t) :
  Authentication.Protocol auth <> "SHA1" ->
  Authentication.Protocol auth <> "MD5" ->
  Privacy.Protocol priv <> "DES" ->
  Privacy.Protocol priv <> "AES" ->
  Authentication_GetProtocol auth = gosnmp.SHA /\
  Privacy_GetProtocol priv = gosnmp.DES /\
  Authentication_GetProtocol auth <> 0%N /\
  Privacy_GetProtocol priv <> 0%N /\
  gosnmp.SHA <> gosnmp.DES.
Proof.
  intros Ha1 Ha2 Hp1 Hp2.
  assert (A : Authentication_GetProtocol auth = gosnmp.SHA)
    by (unfold Authentication_GetProtocol; string_cases; reflexivity).
  assert (P : Privacy_GetProtocol priv = gosnmp.DES)
    by (unfold Privacy_GetProtocol; string_cases; reflexivity).
  rewrite A, P. repeat split; discriminate.
Qed.

Lemma GetProtocol_default_witness :
  Authentication_GetProtocol sha256Authentication = gosnmp.SHA /\
  Privacy_GetProtocol aes256Privacy = gosnmp.DES /\
  Authentication_GetProtocol sha256Authentication <> 0%N /\
  Privacy_GetProtocol aes256Privacy <> 0%N /\
  gosnmp.SHA <> gosnmp.DES.
Proof.
  apply (GetProtocol_default sha256Authentication aes256Privacy);
    simpl; discriminate.
Defined.

(** The known names resolve to their own constants. *)
Lemma GetProtocol_known :
  (forall a, Authentication.Protocol a = "SHA1" -> Authentication_GetProtocol a = gosnmp.SHA) /\
  (forall a, Authentication.Protocol a = "MD5" -> Authentication_GetProtocol a = gosnmp.MD5) /\
  (forall p, Privacy.Protocol p = "DES" -> Privacy_GetProtocol p = gosnmp.DES) /\
  (forall p, Privacy.Protocol p = "AES" -> Privacy_GetProtocol p = gosnmp.AES).
Proof.
  unfold Authentication_GetProtocol, Privacy_GetProtocol.
  repeat split; intros x ->; reflexivity.
Qed.

(** What [SNMPConfigure] always writes. *)
Lemma SNMPConfigure_target (d : Device.t) (s : gosnmp.GoSNMP) :
  gosnmp.Target (SNMPConfigure d s) = Device.Host d /\
  gosnmp.Community (SNMPConfigure d s) = SNMP.Community (Device.SNMP d) /\
  gosnmp.Timeout (SNMPConfigure d s) = (3 * gosnmp.Second)%Z.
Proof.
  unfold SNMPConfigure, configureVersion.
  destruct (_ || _); string_cases; simpl; auto.
Qed.

(** The bundle depends on the two switches only, not on the version. *)
Lemma SNMPConfigure_bundle (d : Device.t) (s : gosnmp.GoSNMP) :
  gosnmp.SecurityParameters (SNMPConfigure d s) =
  if Authentication.Active (SNMP.Authentication (Device.SNMP d))
     || Privacy.Active (SNMP.Privacy (Device.SNMP d))
  then Some (usmSecurityParameters (Device.SNMP d))
  else gosnmp.SecurityParameters s.
Proof.
  unfold SNMPConfigure, configureVersion.
  destruct (_ || _); string_cases; reflexivity.
Qed.

(** C3, as the claim states it, fails: on the library's initial session a
    "2c" descriptor with an active authentication block gets a bundle. *)
Lemma SNMPConfigure_2c_bundle_counterexample :
  ~ (forall d : Device.t,
        SNMP.Version (Device.SNMP d) = "2c" ->
        gosnmp.SecurityParameters (SNMPConfigure d gosnmp.Default) = None).
Proof.
  intros H. specialize (H v2cWithAuthentication eq_refl). discriminate H.
Qed.

(** C3, amended: for a "2c" descriptor [SNMPConfigure] selects version 2c
    and attaches a bundle exactly when the authentication or the privacy
    block is active (named after the community string, with the material of
    the active blocks); with both blocks inactive it leaves the security
    parameters of the shared session as they were, which is none on the
    library's initial session. *)
Theorem SNMPConfigure_2c (d : Device.t) (s : gosnmp.GoSNMP) :
  SNMP.Version (Device.SNMP d) = "2c" ->
  gosnmp.Version (SNMPConfigure d s) = gosnmp.Version2c /\
  (Authentication.Active (SNMP.Authentication (Device.SNMP d))
   || Privacy.Active (SNMP.Privacy (Device.SNMP d)) = true ->
   gosnmp.SecurityParameters (SNMPConfigure d s)
   = Some (usmSecurityParameters (Device.SNMP d)) /\
   gosnmp.UserName (usmSecurityParameters (Device.SNMP d))
   = SNMP.Community (Device.SNMP d)) /\
  (Authentication.Active (SNMP.Authentication (Device.SNMP d))
   || Privacy.Active (SNMP.Privacy (Device.SNMP d)) = false ->
   gosnmp.SecurityParameters (SNMPConfigure d s) = gosnmp.SecurityParameters s /\
   gosnmp.SecurityParameters (SNMPConfigure d gosnmp.Default) = None).
Proof.
  intros Hv. split; [|split]; intros; rewrite ?SNMPConfigure_bundle.
  - unfold SNMPConfigure, configureVersion. rewrite Hv.
    destruct (_ || _); reflexivity.
  - rewrite H. split; reflexivity.
  - rewrite H. split; reflexivity.
Qed.

Lemma SNMPConfigure_2c_witness :
  gosnmp.Version (SNMPConfigure v2cWithAuthentication gosnmp.Default)
  = gosnmp.Version2c /\
  gosnmp.SecurityParameters (SNMPConfigure v2cWithAuthentication gosnmp.Default)
  = Some (usmSecurityParameters (Device.SNMP v2cWithAuthentication)).
Proof.
  destruct (SNMPConfigure_2c v2cWithAuthentication gosnmp.Default eq_refl)
    as (Hv & Hon & _).
  split; [exact Hv | exact (proj1 (Hon eq_refl))].
Defined.

(** C6, as the claim states it, fails: a "3" descriptor with both blocks
    inactive gets no bundle, but its session asks for authentication and
    privacy. *)
Lemma SNMPConfigure_v3_plain_counterexample :
  ~ (forall d : Device.t,
        SNMP.Version (Device.SNMP d) = "3" ->
        Authentication.Active (SNMP.Authentication (Device.SNMP d)) = false ->
        Privacy.Active (SNMP.Privacy (Device.SNMP d)) = false ->
        gosnmp.SecurityParameters (SNMPConfigure d gosnmp.Default) = None /\
        gosnmp.requiresAuth (gosnmp.MsgFlags (SNMPConfigure d gosnmp.Default)) = false /\
        gosnmp.requiresPriv (gosnmp.MsgFlags (SNMPConfigure d gosnmp.Default)) = false).
Proof.
  intros H.
  destruct (H v3Plain eq_refl eq_refl eq_refl) as (_ & Ha & _).
  discriminate Ha.
Qed.

(** C6, amended: for a "3" descriptor with both blocks inactive
    [SNMPConfigure] attaches no bundle (the security parameters of the shared
    session stay as they were, none on the library's initial session) and
    selects version 3 with the user security model and the message flags
    AuthPriv: the session asks for both authentication and privacy. *)
Theorem SNMPConfigure_v3_plain (d : Device.t) (s : gosnmp.GoSNMP) :
  SNMP.Version (Device.SNMP d) = "3" ->
  Authentication.Active (SNMP.Authentication (Device.SNMP d)) = false ->
  Privacy.Active (SNMP.Privacy (Device.SNMP d)) = false ->
  gosnmp.SecurityParameters (SNMPConfigure d s) = gosnmp.SecurityParameters s /\
  gosnmp.SecurityParameters (SNMPConfigure d gosnmp.Default) = None /\
  gosnmp.Version (SNMPConfigure d s) = gosnmp.Version3 /\
  gosnmp.SecurityModel (SNMPConfigure d s) = gosnmp.UserSecurityModel /\
  gosnmp.MsgFlags (SNMPConfigure d s) = gosnmp.AuthPriv /\
  gosnmp.requiresAuth (gosnmp.MsgFlags (SNMPConfigure d s)) = true /\
  gosnmp.requiresPriv (gosnmp.MsgFlags (SNMPConfigure d s)) = true.
Proof.
  intros Hv Ha Hp. rewrite !SNMPConfigure_bundle.
  unfold SNMPConfigure, configureVersion. rewrite Hv, Ha, Hp. simpl.
  repeat split.
Qed.

Lemma SNMPConfigure_v3_plain_witness :
  gosnmp.SecurityParameters (SNMPConfigure v3Plain gosnmp.Default) = None /\
  gosnmp.MsgFlags (SNMPConfigure v3Plain gosnmp.Default) = gosnmp.AuthPriv.
Proof.
  destruct (SNMPConfigure_v3_plain v3Plain gosnmp.Default eq_refl eq_refl eq_refl)
    as (_ & Hb & _ & _ & Hf & _).
  split; [exact Hb | exact Hf].
Defined.

(** C9, as the claim states it, fails: configured after a "3" device, a
    descriptor with the version string "2" runs on version 3. *)
Lemma SNMPConfigure_other_version_counterexample :
  ~ (forall d previous : Device.t,
        SNMP.Version (Device.SNMP d) <> "2c" ->
        SNMP.Version (Device.SNMP d) <> "3" ->
        gosnmp.Version (SNMPConfigure d (SNMPConfigure previous gosnmp.Default))
        <> gosnmp.Version3).
Proof.
  intros H.
  apply (H readmeDevice2 readmeDevice1); [discriminate | discriminate | reflexivity].
Qed.

(** C9, amended: for a descriptor whose version string is neither "2c" nor
    "3", [SNMPConfigure] leaves the version, the security model and the
    message flags of the shared session as the previously configured device
    left them; on the library's initial session that is version 2c without
    authentication or privacy flags. *)
Theorem SNMPConfigure_other_version (d : Device.t) (s : gosnmp.GoSNMP) :
  SNMP.Version (Device.SNMP d) <> "2c" ->
  SNMP.Version (Device.SNMP d) <> "3" ->
  (gosnmp.Version (SNMPConfigure d s) = gosnmp.Version s /\
   gosnmp.SecurityModel (SNMPConfigure d s) = gosnmp.SecurityModel s /\
   gosnmp.MsgFlags (SNMPConfigure d s) = gosnmp.MsgFlags s) /\
  (gosnmp.Version (SNMPConfigure d gosnmp.Default) = gosnmp.Version2c /\
   gosnmp.MsgFlags (SNMPConfigure d gosnmp.Default) = gosnmp.NoAuthNoPriv).
Proof.
  intros H2 H3. unfold SNMPConfigure, configureVersion.
  destruct (_ || _); string_cases; simpl; repeat split.
Qed.

Lemma SNMPConfigure_other_version_witness :
  gosnmp.Version (SNMPConfigure readmeDevice2 (SNMPConfigure readmeDevice1 gosnmp.Default))
  = gosnmp.Version3 /\
  gosnmp.Version (SNMPConfigure readmeDevice2 gosnmp.Default) = gosnmp.Version2c.
Proof.
  assert (N2 : SNMP.Version (Device.SNMP readmeDevice2) <> "2c") by discriminate.
  assert (N3 : SNMP.Version (Device.SNMP readmeDevice2) <> "3") by discriminate.
  destruct (SNMPConfigure_other_version readmeDevice2
              (SNMPConfigure readmeDevice1 gosnmp.Default) N2 N3)
    as ((Hv & _) & (Hd & _)).
  split; [rewrite Hv; reflexivity | exact Hd].
Defined.

(** ** The loop over the variables *)

Lemma switchVariable_bytes (d : Device.t) (name b : string) :
  exists d1 printed,
    switchVariable d {| gosnmp.Name := name; gosnmp.Value := gosnmp.Bytes b |}
    = Some (d1, printed).
Proof. unfold switchVariable; simpl. string_cases; eauto. Qed.

Lemma switchVariable_not_bytes (d : Device.t) (v : gosnmp.SnmpPDU) :
  assertBytes (gosnmp.Value v) = None -> switchVariable d v = None.
Proof. intros H. unfold switchVariable. rewrite H. string_cases; reflexivity. Qed.

(** The loop panics exactly when some value is not a byte slice. *)
Lemma rangeVariables_panics (variables : list gosnmp.SnmpPDU) :
  forall d, snd (rangeVariables d variables) = negb (allBytes variables).
Proof.
  induction variables as [|[name value] rest IH]; intros d; [reflexivity|].
  cbn [rangeVariables allBytes forallb gosnmp.Value].
  destruct value as [b| | | |];
    try (rewrite switchVariable_not_bytes by reflexivity; reflexivity).
  destruct (switchVariable_bytes d name b) as (d1 & printed & ->).
  specialize (IH d1). fold (allBytes rest).
  destruct (rangeVariables d1 rest) as [[d2 printed'] panicked].
  exact IH.
Qed.

(** The loop never touches the reachability flag, the host or the SNMP
    block. *)
Lemma rangeVariables_frame (variables : list gosnmp.SnmpPDU) :
  forall d,
    Device.Reached (fst (fst (rangeVariables d variables))) = Device.Reached d /\
    Device.Host (fst (fst (rangeVariables d variables))) = Device.Host d /\
    Device.SNMP (fst (fst (rangeVariables d variables))) = Device.SNMP d.
Proof.
  induction variables as [|v rest IH]; intros d; [now repeat split|].
  cbn [rangeVariables].
  destruct (switchVariable d v) as [[d1 printed]|] eqn:E; [|now repeat split].
  specialize (IH d1).
  destruct (rangeVariables d1 rest) as [[d2 printed'] panicked]. cbn [fst] in *.
  assert (F : Device.Reached d1 = Device.Reached d /\
              Device.Host d1 = Device.Host d /\ Device.SNMP d1 = Device.SNMP d).
  { revert E. unfold switchVariable.
    string_cases; destruct (assertBytes _); intros Hsw;
      try discriminate; injection Hsw as <- _; now repeat split. }
  destruct IH as (-> & -> & ->). exact F.
Qed.

Lemma lastValue_allBytes (variables : list gosnmp.SnmpPDU) (name : string) :
  allBytes variables = true ->
  lastValue name variables = None \/
  exists b, lastValue name variables = Some (gosnmp.Bytes b).
Proof.
  induction variables as [|[n value] rest IH]; intros Hb; [now left|].
  cbn [allBytes forallb gosnmp.Value] in Hb.
  destruct value as [b| | | |]; try discriminate.
  fold (allBytes rest) in Hb. simpl in Hb.
  cbn [lastValue gosnmp.Name gosnmp.Value].
  destruct (IH Hb) as [-> | (b' & ->)]; [|eauto].
  destruct (n =? name); eauto.
Qed.

(** On byte values the loop assigns every field from the last variable that
    carries its address; the description loses its first "RouterOS". *)
Lemma rangeVariables_assigns (variables : list gosnmp.SnmpPDU) :
  allBytes variables = true ->
  forall d,
    let d' := fst (fst (rangeVariables d variables)) in
    Version.RouterOS (Device.Version d')
    = assigned ".1.3.6.1.4.1.14988.1.1.4.4.0" variables
               (Version.RouterOS (Device.Version d)) (fun b => b) /\
    Version.Latest (Device.Version d')
    = assigned ".1.3.6.1.4.1.14988.1.1.7.7.0" variables
               (Version.Latest (Device.Version d)) (fun b => b) /\
    Version.Bootloader (Device.Version d')
    = assigned ".1.3.6.1.4.1.14988.1.1.7.4.0" variables
               (Version.Bootloader (Device.Version d)) (fun b => b) /\
    Device.Model d'
    = assigned ".1.3.6.1.2.1.1.1.0" variables (Device.Model d)
               (fun b => strings.Replace b "RouterOS" EmptyString 1) /\
    Device.Name d'
    = assigned ".1.3.6.1.2.1.1.5.0" variables (Device.Name d) (fun b => b).
Proof.
  induction variables as [|[name value] rest IH]; intros Hb d;
    [now repeat split|].
  cbn [allBytes forallb gosnmp.Value] in Hb.
  destruct value as [b| | | |]; try discriminate.
  fold (allBytes rest) in Hb. simpl in Hb. specialize (IH Hb).
  cbn [rangeVariables].
  destruct (switchVariable d _) as [[d1 printed]|] eqn:E;
    [|destruct (switchVariable_bytes d name b) as (? & ? & E'); congruence].
  specialize (IH d1).
  destruct (rangeVariables d1 rest) as [[d2 printed'] panicked].
  cbv zeta in *. cbn [fst] in *.
  destruct IH as (-> & -> & -> & -> & ->).
  unfold assigned. cbn [lastValue gosnmp.Name gosnmp.Value].
  revert E. unfold switchVariable. cbn [gosnmp.Name gosnmp.Value assertBytes].
  string_cases; intros Hsw; injection Hsw as <- _; subst; simpl;
    repeat split;
    repeat match goal with
           | |- context [lastValue ?n rest] =>
               destruct (lastValue_allBytes rest n Hb) as [-> | (? & ->)]
           end; reflexivity.
Qed.

(** A byte value under an address that was not requested is printed and
    changes nothing. *)
Lemma switchVariable_unknown (d : Device.t) (name b : string) :
  existsb (String.eqb name) oids = false ->
  switchVariable d {| gosnmp.Name := name; gosnmp.Value := gosnmp.Bytes b |}
  = Some (d, [EvPrintln (name ++ " : " ++ b)]).
Proof.
  unfold switchVariable, oids; simpl.
  string_cases; simpl; intros K; try discriminate K; reflexivity.
Qed.

Lemma rangeVariables_knownOnly (variables : list gosnmp.SnmpPDU) :
  allBytes variables = true ->
  forall d,
    fst (fst (rangeVariables d (knownOnly variables)))
    = fst (fst (rangeVariables d variables)).
Proof.
  induction variables as [|[name value] rest IH]; intros Hb d; [reflexivity|].
  cbn [allBytes forallb gosnmp.Value] in Hb.
  destruct value as [b| | | |]; try discriminate.
  fold (allBytes rest) in Hb. simpl in Hb. specialize (IH Hb).
  unfold knownOnly. cbn [filter gosnmp.Name]. fold (knownOnly rest).
  destruct (existsb (String.eqb name) oids) eqn:K.
  - cbn [rangeVariables].
    destruct (switchVariable d _) as [[d1 printed]|]; [|reflexivity].
    specialize (IH d1).
    destruct (rangeVariables d1 (knownOnly rest)) as [[? ?] ?].
    destruct (rangeVariables d1 rest) as [[? ?] ?]. exact IH.
  - cbn [rangeVariables]. rewrite (switchVariable_unknown d name b K).
    specialize (IH d).
    destruct (rangeVariables d (knownOnly rest)) as [[? ?] ?].
    destruct (rangeVariables d rest) as [[? ?] ?]. exact IH.
Qed.

(** The loop over an answer that starts with byte values goes on from the
    record these gave. *)
Lemma rangeVariables_app (before rest : list gosnmp.SnmpPDU) :
  allBytes before = true ->
  forall d,
    fst (fst (rangeVariables d (before ++ rest)%list))
    = fst (fst (rangeVariables (fst (fst (rangeVariables d before))) rest)).
Proof.
  induction before as [|[name value] before IH]; intros B d; [reflexivity|].
  cbn [allBytes forallb gosnmp.Value] in B.
  destruct value as [b| | | |]; try discriminate.
  fold (allBytes before) in B. simpl in B. specialize (IH B).
  cbn [app rangeVariables].
  destruct (switchVariable_bytes d name b) as (d1 & printed & ->).
  specialize (IH d1).
  destruct (rangeVariables d1 (before ++ rest)%list) as [[? ?] ?].
  destruct (rangeVariables d1 before) as [[? ?] ?]. exact IH.
Qed.

(** Variables under other addresses leave the model alone, whether the
    loop gets through them or panics on one of them. *)
Lemma rangeVariables_keeps_model (variables : list gosnmp.SnmpPDU) :
  lastValue ".1.3.6.1.2.1.1.1.0" variables = None ->
  forall d, Device.Model (fst (fst (rangeVariables d variables))) = Device.Model d.
Proof.
  induction variables as [|v rest IH]; intros L d; [reflexivity|].
  cbn [lastValue] in L.
  destruct (lastValue ".1.3.6.1.2.1.1.1.0" rest); [discriminate L|].
  destruct (gosnmp.Name v =? ".1.3.6.1.2.1.1.1.0") eqn:N; [discriminate L|].
  specialize (IH eq_refl). cbn [rangeVariables].
  destruct (switchVariable d v) as [[d1 printed]|] eqn:E; [|reflexivity].
  specialize (IH d1).
  destruct (rangeVariables d1 rest) as [[d2 printed'] panicked].
  cbn [fst] in *. rewrite IH. revert E. unfold switchVariable. rewrite N.
  string_cases; destruct (assertBytes _); intros Hsw;
    try discriminate Hsw; injection Hsw as <- _; reflexivity.
Qed.

(** ** [GetDevice] *)

(** The function by what its two library calls return. *)
Lemma GetDevice_unfold net s d :
  GetDevice net s d =
  match connectResult net s d with
  | Some err =>
      {| session := connected net s d; device := d;
         outcome := Return (Some ("fehler beim Verbinden: " ++ err));
         events := [EvConnect (Device.Host d)] |}
  | None =>
      let s2 := fst (gosnmp.Get net (connected net s d) oids) in
      match getResult net s d with
      | inl err2 =>
          {| session := s2; device := d;
             outcome := Return (Some (Device.Host d ++ " Fehler bei der SNMP-Anfrage: " ++ err2));
             events := ([EvConnect (Device.Host d);
                         EvGet (gosnmp.Target (connected net s d)) oids]
                        ++ deferredClose net s2)%list |}
      | inr variables =>
          {| session := s2;
             device := fst (fst (rangeVariables (Device.setReached true d) variables));
             outcome := if snd (rangeVariables (Device.setReached true d) variables)
                        then Panic else Return None;
             events := ([EvConnect (Device.Host d);
                         EvGet (gosnmp.Target (connected net s d)) oids]
                        ++ snd (fst (rangeVariables (Device.setReached true d) variables))
                        ++ deferredClose net s2)%list |}
      end
  end.
Proof.
  unfold GetDevice, connectResult, getResult, connected.
  rewrite (proj1 (SNMPConfigure_target d s)).
  destruct (gosnmp.Connect net (SNMPConfigure d s)) as [s1 [err|]];
    cbn [fst snd]; [reflexivity|].
  destruct (gosnmp.Get net s1 oids) as [s2 [err2|variables]];
    cbn [fst snd]; [reflexivity|].
  now destruct (rangeVariables _ variables) as [[d' printed] panicked].
Qed.

(** The three ways through the function. *)
Lemma GetDevice_connect_failed net s d err :
  connectResult net s d = Some err ->
  GetDevice net s d =
  {| session := connected net s d; device := d;
     outcome := Return (Some ("fehler beim Verbinden: " ++ err));
     events := [EvConnect (Device.Host d)] |}.
Proof. intros H. now rewrite GetDevice_unfold, H. Qed.

Lemma GetDevice_query_failed net s d err :
  connectResult net s d = None ->
  getResult net s d = inl err ->
  device (GetDevice net s d) = d /\
  outcome (GetDevice net s d)
  = Return (Some (Device.Host d ++ " Fehler bei der SNMP-Anfrage: " ++ err)).
Proof. intros H1 H2. rewrite GetDevice_unfold, H1, H2. now split. Qed.

Lemma GetDevice_answered net s d variables :
  connectResult net s d = None ->
  getResult net s d = inr variables ->
  device (GetDevice net s d)
  = fst (fst (rangeVariables (Device.setReached true d) variables)) /\
  outcome (GetDevice net s d)
  = (if allBytes variables then Return None else Panic).
Proof.
  intros H1 H2. rewrite GetDevice_unfold, H1, H2. cbn [device outcome].
  split; [reflexivity|].
  rewrite (rangeVariables_panics variables (Device.setReached true d)).
  now destruct (allBytes variables).
Qed.

(** Once the session is open it is closed on every way out, also when the
    loop panics. *)
Lemma GetDevice_closes net s d :
  connectResult net s d = None ->
  In EvClose (events (GetDevice net s d)).
Proof.
  intros C. rewrite GetDevice_unfold, C. cbv zeta.
  assert (K : forall x, In EvClose (deferredClose net x))
    by (intros x; unfold deferredClose; destruct (gosnmp.Close _ _); simpl; auto).
  destruct (getResult net s d) as [err|vs]; cbn [events].
  - simpl. auto.
  - simpl. do 2 right. apply in_or_app. right. apply K.
Qed.

(** C2, as the claim states it, fails: a record whose flag is already set
    keeps it when the session cannot be opened. *)
Lemma GetDevice_reached_counterexample :
  ~ (forall net s d,
        Device.Reached (device (GetDevice net s d)) = true <->
        batchReturned net s d = true).
Proof.
  intros H.
  destruct (H (netConnectFails "dial udp: i/o timeout") gosnmp.Default reachedBefore)
    as [H1 _].
  discriminate (H1 eq_refl).
Qed.

(** C2, amended: a poll never clears the reachability flag; the flag after
    the poll is the flag before it or-ed with "the batch request returned
    without an error".  So for every record whose flag is false before the
    poll, the flag afterwards is true if and only if the batch request
    returned: it stays false when the session cannot be opened and when the
    request fails, and it is true after any answer, whatever addresses and
    values the answer holds (also when the loop panics on a value). *)
Theorem GetDevice_reached net s d :
  Device.Reached (device (GetDevice net s d))
  = Device.Reached d || batchReturned net s d /\
  (Device.Reached d = false ->
   (Device.Reached (device (GetDevice net s d)) = true <->
    batchReturned net s d = true)).
Proof.
  assert (E : Device.Reached (device (GetDevice net s d))
              = Device.Reached d || batchReturned net s d).
  { unfold batchReturned.
    destruct (connectResult net s d) as [err|] eqn:C.
    - rewrite (GetDevice_connect_failed _ _ _ _ C). simpl.
      now rewrite orb_false_r.
    - destruct (getResult net s d) as [err|vs] eqn:G.
      + destruct (GetDevice_query_failed _ _ _ _ C G) as (-> & _).
        now rewrite orb_false_r.
      + destruct (GetDevice_answered _ _ _ _ C G) as (-> & _).
        rewrite (proj1 (rangeVariables_frame vs _)). simpl.
        now rewrite orb_true_r. }
  split; [exact E|]. intros F. rewrite E, F. simpl. tauto.
Qed.

Lemma GetDevice_reached_witness :
  Device.Reached publicHost = false /\
  (Device.Reached (device (GetDevice (netAnswers fullAnswer) gosnmp.Default publicHost))
   = true <->
   batchReturned (netAnswers fullAnswer) gosnmp.Default publicHost = true).
Proof.
  split; [reflexivity|].
  exact (proj2 (GetDevice_reached (netAnswers fullAnswer) gosnmp.Default publicHost)
               eq_refl).
Defined.

(** When the session cannot be opened the record is left as it was, no
    request is issued, and the error is the library's text behind a fixed
    prefix: the host is not put into it. *)
Lemma GetDevice_connect_failure net s d err :
  connectResult net s d = Some err ->
  outcome (GetDevice net s d) = Return (Some ("fehler beim Verbinden: " ++ err)) /\
  device (GetDevice net s d) = d /\
  (forall target names, ~ In (EvGet target names) (events (GetDevice net s d))).
Proof.
  intros C. rewrite (GetDevice_connect_failed _ _ _ _ C). simpl.
  repeat split. intros target names [H|[]]. discriminate H.
Qed.

(** The sibling path: the error of a failed request starts with the host. *)
Lemma GetDevice_query_failure_names_host net s d err :
  connectResult net s d = None ->
  getResult net s d = inl err ->
  exists message,
    outcome (GetDevice net s d) = Return (Some message) /\
    strings.Contains message (Device.Host d) = true /\
    device (GetDevice net s d) = d.
Proof.
  intros C G. destruct (GetDevice_query_failed _ _ _ _ C G) as (Hd & Ho).
  eexists. split; [exact Ho|]. split; [|exact Hd].
  apply Contains_append_l, Contains_refl.
Qed.

(** C4, the code at the failing input: a version 3 device with both blocks
    inactive, whose session the library refuses to open because no security
    parameters are set.  The error that [GetDevice] returns does not contain
    the host "192.0.2.7"; the record is unchanged and no request is issued. *)
Lemma GetDevice_connect_error_omits_host :
  outcome (GetDevice (netConnectFails "SNMPV3 SecurityParameters must be set")
                     gosnmp.Default v3Plain)
  = Return (Some "fehler beim Verbinden: SNMPV3 SecurityParameters must be set") /\
  strings.Contains "fehler beim Verbinden: SNMPV3 SecurityParameters must be set"
                   (Device.Host v3Plain) = false /\
  device (GetDevice (netConnectFails "SNMPV3 SecurityParameters must be set")
                    gosnmp.Default v3Plain) = v3Plain /\
  events (GetDevice (netConnectFails "SNMPV3 SecurityParameters must be set")
                    gosnmp.Default v3Plain) = [EvConnect "192.0.2.7"].
Proof. repeat split. Qed.

(** C10: on an answer the loop asserts every value, under a requested
    address or not, to be a byte slice.  The poll returns (without an error)
    exactly when every value is one; a single value of another type makes
    the call panic instead of returning, with the flag already set, and the
    session is still closed. *)
Theorem GetDevice_value_assertion net s d variables :
  connectResult net s d = None ->
  getResult net s d = inr variables ->
  (allBytes variables = true <-> outcome (GetDevice net s d) = Return None) /\
  (allBytes variables = false <-> outcome (GetDevice net s d) = Panic) /\
  (forall v, In v variables -> assertBytes (gosnmp.Value v) = None ->
             outcome (GetDevice net s d) = Panic /\
             Device.Reached (device (GetDevice net s d)) = true /\
             In EvClose (events (GetDevice net s d))).
Proof.
  intros C G. destruct (GetDevice_answered _ _ _ _ C G) as (Hd & Ho).
  rewrite Ho. split; [|split].
  - destruct (allBytes variables); split; intros H; try reflexivity; discriminate.
  - destruct (allBytes variables); split; intros H; try reflexivity; discriminate.
  - intros v Hin Hv.
    assert (B : allBytes variables = false).
    { destruct (allBytes variables) eqn:B; [|reflexivity].
      unfold allBytes in B. rewrite forallb_forall in B. specialize (B v Hin).
      destruct (gosnmp.Value v); discriminate. }
    rewrite B, Hd, (proj1 (rangeVariables_frame variables _)).
    repeat split. now apply GetDevice_closes.
Qed.

Lemma GetDevice_value_assertion_witness :
  outcome (GetDevice (netAnswers answerWithoutLatest) gosnmp.Default publicHost)
  = Panic /\
  outcome (GetDevice (netAnswers fullAnswer) gosnmp.Default publicHost)
  = Return None.
Proof.
  split.
  - exact (proj1 (proj1 (proj2 (GetDevice_value_assertion
             (netAnswers answerWithoutLatest) gosnmp.Default publicHost
             answerWithoutLatest eq_refl eq_refl))) eq_refl).
  - exact (proj1 (proj1 (GetDevice_value_assertion
             (netAnswers fullAnswer) gosnmp.Default publicHost
             fullAnswer eq_refl eq_refl)) eq_refl).
Defined.

(** ** The mapping of an answer into the record *)

(** C5, as the claim states it, fails: an answer that holds all five
    addresses, one of them with a [nil] value, makes the call panic instead
    of returning. *)
Lemma GetDevice_full_answer_counterexample :
  ~ (forall net s d variables,
        connectResult net s d = None ->
        getResult net s d = inr variables ->
        (forall oid, In oid oids -> exists v, lastValue oid variables = Some v) ->
        outcome (GetDevice net s d) = Return None).
Proof.
  intros H.
  assert (A : forall oid, In oid oids ->
                exists v, lastValue oid answerWithoutLatest = Some v).
  { intros oid Hin. unfold oids in Hin. simpl in Hin.
    repeat (destruct Hin as [<-|Hin]; [eexists; reflexivity|]).
    destruct Hin. }
  specialize (H (netAnswers answerWithoutLatest) gosnmp.Default publicHost
                answerWithoutLatest eq_refl eq_refl A).
  discriminate H.
Qed.

(** C5, amended: for every answer whose values are all byte slices and that
    holds the five requested addresses, [GetDevice] returns no error and the
    record is reachable with the firmware, bootloader and latest version and
    the name set to the text of the (last) value under their address, and
    the model to the description without its first "RouterOS"; the variables
    under other addresses change nothing: the record is the one the answer
    without them gives. *)
Theorem GetDevice_full_answer net s d variables fw boot latest descr name :
  connectResult net s d = None ->
  getResult net s d = inr variables ->
  allBytes variables = true ->
  lastValue ".1.3.6.1.4.1.14988.1.1.4.4.0" variables = Some (gosnmp.Bytes fw) ->
  lastValue ".1.3.6.1.4.1.14988.1.1.7.4.0" variables = Some (gosnmp.Bytes boot) ->
  lastValue ".1.3.6.1.4.1.14988.1.1.7.7.0" variables = Some (gosnmp.Bytes latest) ->
  lastValue ".1.3.6.1.2.1.1.1.0" variables = Some (gosnmp.Bytes descr) ->
  lastValue ".1.3.6.1.2.1.1.5.0" variables = Some (gosnmp.Bytes name) ->
  outcome (GetDevice net s d) = Return None /\
  device (GetDevice net s d) =
  {| Device.Reached := true;
     Device.Host := Device.Host d;
     Device.Model := strings.Replace descr "RouterOS" EmptyString 1;
     Device.Name := name;
     Device.SNMP := Device.SNMP d;
     Device.Version := {| Version.RouterOS := fw;
                          Version.Bootloader := boot;
                          Version.Latest := latest |} |} /\
  device (GetDevice (netAnswers (knownOnly variables)) s d)
  = device (GetDevice net s d).
Proof.
  intros C G B Hfw Hboot Hlatest Hdescr Hname.
  destruct (GetDevice_answered _ _ _ _ C G) as (Hd & Ho).
  rewrite Ho, B. split; [reflexivity|]. split.
  - rewrite Hd.
    pose proof (rangeVariables_frame variables (Device.setReached true d))
      as (Fr & Fh & Fs).
    pose proof (rangeVariables_assigns variables B (Device.setReached true d))
      as (A1 & A2 & A3 & A4 & A5).
    cbv zeta in *. unfold assigned in *.
    rewrite Hfw in A1. rewrite Hlatest in A2. rewrite Hboot in A3.
    rewrite Hdescr in A4. rewrite Hname in A5.
    destruct (fst (fst (rangeVariables _ variables))) as [r h m n sn [v1 v2 v3]].
    simpl in *. subst. reflexivity.
  - destruct (GetDevice_answered (netAnswers (knownOnly variables)) s d
                (knownOnly variables) eq_refl eq_refl) as (Hd' & _).
    rewrite Hd, Hd'. now apply rangeVariables_knownOnly.
Qed.

Lemma GetDevice_full_answer_witness :
  outcome (GetDevice (netAnswers fullAnswer) gosnmp.Default publicHost)
  = Return None /\
  device (GetDevice (netAnswers fullAnswer) gosnmp.Default publicHost) =
  {| Device.Reached := true;
     Device.Host := "public.example.net";
     Device.Model := " RB1100";
     Device.Name := "core-gw";
     Device.SNMP := Device.SNMP publicHost;
     Device.Version := {| Version.RouterOS := "7.15.3";
                          Version.Bootloader := "7.15.2";
                          Version.Latest := "7.16" |} |}.
Proof.
  destruct (GetDevice_full_answer (netAnswers fullAnswer) gosnmp.Default publicHost
              fullAnswer "7.15.3" "7.15.2" "7.16" "RouterOS RB1100" "core-gw"
              eq_refl eq_refl eq_refl eq_refl eq_refl eq_refl eq_refl eq_refl)
    as (Ho & Hd & _).
  split; [exact Ho | exact Hd].
Defined.

(** C8, as the claim states it, fails: in an answer whose description
    "RouterOS RB1100" stands behind a [nil] value the loop panics before it
    reaches the description, and the model keeps its old (empty) text. *)
Lemma GetDevice_model_counterexample :
  ~ (forall net s d variables descr,
        connectResult net s d = None ->
        getResult net s d = inr variables ->
        lastValue ".1.3.6.1.2.1.1.1.0" variables = Some (gosnmp.Bytes descr) ->
        Device.Model (device (GetDevice net s d))
        = strings.Replace descr "RouterOS" EmptyString 1).
Proof.
  intros H.
  specialize (H (netAnswers answerNilBeforeDescription) gosnmp.Default publicHost
                answerNilBeforeDescription "RouterOS RB1100"
                eq_refl eq_refl eq_refl).
  discriminate H.
Qed.

(** C8, amended: for every description value that the loop reaches (every
    value in front of it in the answer is a byte slice) and that is the last
    variable under the description address, the model is the text of the
    value with the leftmost "RouterOS" taken out and nothing else changed:
    what stands before and after it, white space and further occurrences
    included, is kept; a text that does not hold "RouterOS" is stored as it
    is.  "RouterOS RB1100" gives " RB1100", with its leading space.  The
    values behind the description do not matter, also when the loop panics
    on one of them. *)
Theorem GetDevice_model net s d before descr after :
  connectResult net s d = None ->
  getResult net s d
  = inr (before ++ {| gosnmp.Name := ".1.3.6.1.2.1.1.1.0";
                      gosnmp.Value := gosnmp.Bytes descr |} :: after)%list ->
  allBytes before = true ->
  lastValue ".1.3.6.1.2.1.1.1.0" after = None ->
  (forall pre post,
      descr = pre ++ "RouterOS" ++ post ->
      (forall p q, descr = p ++ "RouterOS" ++ q ->
                   String.length pre <= String.length p) ->
      Device.Model (device (GetDevice net s d)) = pre ++ post) /\
  (strings.Contains descr "RouterOS" = false ->
   Device.Model (device (GetDevice net s d)) = descr) /\
  (descr = "RouterOS RB1100" ->
   Device.Model (device (GetDevice net s d)) = " RB1100").
Proof.
  intros C G B L.
  destruct (GetDevice_answered _ _ _ _ C G) as (Hd & _).
  assert (A : Device.Model (device (GetDevice net s d))
              = strings.Replace descr "RouterOS" EmptyString 1).
  { rewrite Hd, (rangeVariables_app before _ B). cbn [rangeVariables].
    unfold switchVariable at 1. cbn [gosnmp.Name gosnmp.Value assertBytes].
    cbn [String.eqb Ascii.eqb Bool.eqb andb].
    pose proof (rangeVariables_keeps_model after L) as K.
    match goal with
    | |- context [rangeVariables ?x after] =>
        specialize (K x); destruct (rangeVariables x after) as [[d2 printed] panicked]
    end.
    cbn [fst] in *. exact K. }
  rewrite A. clear A.
  assert (First : forall pre post,
             descr = pre ++ "RouterOS" ++ post ->
             (forall p q, descr = p ++ "RouterOS" ++ q ->
                          String.length pre <= String.length p) ->
             strings.Replace descr "RouterOS" EmptyString 1 = pre ++ post).
  { intros pre post -> Hmin.
    change (pre ++ post) with (pre ++ EmptyString ++ post).
    now apply Replace_once_first. }
  split; [exact First|]. split.
  - intros Habs. apply Replace_once_absent. now apply Contains_false_iff.
  - intros ->. reflexivity.
Qed.

Lemma GetDevice_model_witness :
  Device.Model (device (GetDevice (netAnswers answerNilAfterDescription)
                          gosnmp.Default publicHost))
  = " RB1100" /\
  outcome (GetDevice (netAnswers answerNilAfterDescription) gosnmp.Default publicHost)
  = Panic.
Proof.
  split; [|reflexivity].
  exact (proj2 (proj2 (GetDevice_model (netAnswers answerNilAfterDescription)
                         gosnmp.Default publicHost
                         [octets ".1.3.6.1.4.1.14988.1.1.4.4.0" "7.15.3"]
                         "RouterOS RB1100"
                         [{| gosnmp.Name := ".1.3.6.1.2.1.1.5.0";
                             gosnmp.Value := gosnmp.Nil |}]
                         eq_refl eq_refl eq_refl eq_refl)) eq_refl).
Defined.

(** Only the leftmost occurrence goes. *)
Example Replace_keeps_second_occurrence :
  strings.Replace "RouterOS RouterOS CHR" "RouterOS" EmptyString 1
  = " RouterOS CHR".
Proof. reflexivity. Qed.

(** ** The caller's loop *)

(** A poll that returns, with an error or without, hands the next device
    the session as it leaves it, and the loop goes on. *)
Lemma pollAll_after_return net s d rest err :
  outcome (GetDevice net s d) = Return err ->
  pollAll net s (d :: rest) =
  (fst (fst (pollAll net (session (GetDevice net s d)) rest)),
   device (GetDevice net s d)
   :: snd (fst (pollAll net (session (GetDevice net s d)) rest)),
   snd (pollAll net (session (GetDevice net s d)) rest)).
Proof.
  intros H. cbn [pollAll]. rewrite H.
  now destruct (pollAll net (session (GetDevice net s d)) rest) as [[s' rest'] p].
Qed.

(** A device whose session cannot be opened stays as it was and the loop
    goes on with the others. *)
Lemma pollAll_after_connect_failure net s d rest err :
  connectResult net s d = Some err ->
  snd (fst (pollAll net s (d :: rest)))
  = d :: snd (fst (pollAll net (connected net s d) rest)).
Proof.
  intros C.
  destruct (GetDevice_connect_failure _ _ _ _ C) as (Ho & Hd & _).
  rewrite (pollAll_after_return _ _ _ _ _ Ho). cbn [fst snd].
  rewrite Hd. now rewrite (GetDevice_connect_failed _ _ _ _ C).
Qed.

(** A panic ends the loop: the devices behind the panicking one are not
    polled. *)
Lemma pollAll_after_panic net s d rest :
  outcome (GetDevice net s d) = Panic ->
  pollAll net s (d :: rest)
  = (session (GetDevice net s d), device (GetDevice net s d) :: rest, true).
Proof. intros H. cbn [pollAll]. now rewrite H. Qed.

(** ** [ResultJson] *)

Lemma marshalDevice_samePublic (d d' : Device.t) :
  samePublic d d' -> marshalDevice d = marshalDevice d'.
Proof.
  destruct d as [r h m n [v c [aa ap aw] [pa pp pw]] ver].
  destruct d' as [r' h' m' n' [v' c' [aa' ap' aw'] [pa' pp' pw']] ver'].
  unfold samePublic; simpl.
  intros (-> & -> & -> & -> & -> & -> & -> & ->). reflexivity.
Qed.

Lemma elements_cons (x : string) (l : list string) :
  json.elements (x :: l)
  = x ++ match l with [] => EmptyString | _ => "," ++ json.elements l end.
Proof. destruct l; simpl; [now rewrite append_empty_r | reflexivity]. Qed.

Lemma elements_contains (x : string) (l : list string) :
  In x l -> strings.Contains (json.elements l) x = true.
Proof.
  induction l as [|y l IH]; intros H; [destruct H|].
  rewrite elements_cons. destruct H as [->|H].
  - apply Contains_append_l, Contains_refl.
  - apply Contains_append_r. destruct l as [|z l]; [destruct H|].
    apply Contains_append_r. now apply IH.
Qed.

(** C1, as the claim states it, fails: the community string "public" of a
    device whose host is "public.example.net" occurs in the output. *)
Lemma ResultJson_secret_counterexample :
  ~ (forall (ds : list Device.t) (d : Device.t),
        In d ds ->
        strings.Contains (ResultJson (Some ds)) (SNMP.Community (Device.SNMP d))
        = false).
Proof.
  intros H. specialize (H [publicHost] publicHost (or_introl eq_refl)).
  vm_compute in H. discriminate H.
Qed.

(** C1, amended: the output of [ResultJson] does not depend on the secrets:
    two fleets that differ only in community strings and in the algorithm
    names and passphrases of the authentication and privacy blocks give the
    same string (a secret can still occur in it as part of another field or
    of a field name).  Every record appears in the output as an object that
    holds exactly the other fields, under their declared names and in
    declaration order. *)
Theorem ResultJson_hides_secrets (ds ds' : list Device.t) :
  Forall2 samePublic ds ds' ->
  ResultJson (Some ds) = ResultJson (Some ds') /\
  forall d, In d ds ->
    strings.Contains (ResultJson (Some ds))
      ("{" ++ json.member "Reached" (json.boolean (Device.Reached d))
       ++ "," ++ json.member "Host" (json.appendString (Device.Host d))
       ++ "," ++ json.member "Model" (json.appendString (Device.Model d))
       ++ "," ++ json.member "Name" (json.appendString (Device.Name d))
       ++ "," ++ json.member "SNMP"
            ("{" ++ json.member "Version"
                      (json.appendString (SNMP.Version (Device.SNMP d)))
             ++ "," ++ json.member "Authentication"
                  ("{" ++ json.member "Active"
                            (json.boolean (Authentication.Active
                               (SNMP.Authentication (Device.SNMP d)))) ++ "}")
             ++ "," ++ json.member "Privacy"
                  ("{" ++ json.member "Active"
                            (json.boolean (Privacy.Active
                               (SNMP.Privacy (Device.SNMP d)))) ++ "}")
             ++ "}")
       ++ "," ++ json.member "Version"
            ("{" ++ json.member "RouterOS"
                      (json.appendString (Version.RouterOS (Device.Version d)))
             ++ "," ++ json.member "Bootloader"
                  (json.appendString (Version.Bootloader (Device.Version d)))
             ++ "," ++ json.member "Latest"
                  (json.appendString (Version.Latest (Device.Version d)))
             ++ "}")
       ++ "}") = true.
Proof.
  intros H. split.
  - assert (M : map marshalDevice ds = map marshalDevice ds').
    { induction H as [|d d' l l' Hd _ IH]; [reflexivity|].
      simpl. now rewrite (marshalDevice_samePublic _ _ Hd), IH. }
    unfold ResultJson. now rewrite M.
  - intros d Hin. unfold ResultJson.
    apply Contains_append_r, Contains_append_l.
    apply (elements_contains (marshalDevice d)).
    now apply in_map.
Qed.

Lemma ResultJson_hides_secrets_witness :
  ResultJson (Some [publicHost; readmeDevice1])
  = ResultJson (Some [publicHostOtherSecrets; readmeDevice1]).
Proof.
  refine (proj1 (ResultJson_hides_secrets [publicHost; readmeDevice1]
                   [publicHostOtherSecrets; readmeDevice1] _)).
  repeat constructor.
Defined.

(** A [nil] slice is [null], an empty one [[]]. *)
Example ResultJson_nil_and_empty :
  ResultJson None = "null" /\ ResultJson (Some []) = "[]".
Proof. split; reflexivity. Qed.

(** * Further properties *)

(** ** Algorithm names *)

(** X1: the algorithm names are matched exactly.  The authentication
    algorithm is MD5 if and only if the name is "MD5" and SHA for every other
    name; the privacy algorithm is AES if and only if the name is "AES" and
    DES for every other name.  A name in another spelling ("md5", "SHA256")
    silently selects the default. *)
Theorem GetProtocol_exact :
  (forall a : Authentication.t,
      (Authentication_GetProtocol a = gosnmp.MD5 <-> Authentication.Protocol a = "MD5") /\
      (Authentication_GetProtocol a = gosnmp.SHA <-> Authentication.Protocol a <> "MD5")) /\
  (forall p : Privacy.t,
      (Privacy_GetProtocol p = gosnmp.AES <-> Privacy.Protocol p = "AES") /\
      (Privacy_GetProtocol p = gosnmp.DES <-> Privacy.Protocol p <> "AES")).
Proof.
  split; intros x; unfold Authentication_GetProtocol, Privacy_GetProtocol;
    string_cases; repeat split; intros H;
    try reflexivity; try discriminate H; try congruence.
Qed.

(** ** The shared session *)

(** X2: configuring the same device twice is the same as configuring it
    once. *)
Theorem SNMPConfigure_idempotent (d : Device.t) (s : gosnmp.GoSNMP) :
  SNMPConfigure d (SNMPConfigure d s) = SNMPConfigure d s.
Proof.
  unfold SNMPConfigure, configureVersion.
  destruct (_ || _); string_cases; reflexivity.
Qed.

(** X3: a "3" descriptor with an active block writes every field of the
    session: what an earlier device left on it has no influence. *)
Theorem SNMPConfigure_v3_secured_overwrites (d : Device.t) (s s' : gosnmp.GoSNMP) :
  SNMP.Version (Device.SNMP d) = "3" ->
  Authentication.Active (SNMP.Authentication (Device.SNMP d))
  || Privacy.Active (SNMP.Privacy (Device.SNMP d)) = true ->
  SNMPConfigure d s = SNMPConfigure d s'.
Proof.
  intros Hv Ha. unfold SNMPConfigure, configureVersion. rewrite Hv, Ha.
  reflexivity.
Qed.

Lemma SNMPConfigure_v3_secured_overwrites_witness :
  SNMPConfigure readmeDevice1 (SNMPConfigure v2cWithAuthentication gosnmp.Default)
  = SNMPConfigure readmeDevice1 gosnmp.Default.
Proof.
  exact (SNMPConfigure_v3_secured_overwrites readmeDevice1 _ _ eq_refl eq_refl).
Defined.

(** X4: the bundle of an earlier device stays on the session.  After a
    device with an active block, a device with both blocks inactive is
    configured with its own target and community string but with the
    security parameters (user name and passphrases) of the earlier device. *)
Theorem SNMPConfigure_keeps_previous_bundle (previous d : Device.t) (s : gosnmp.GoSNMP) :
  Authentication.Active (SNMP.Authentication (Device.SNMP previous))
  || Privacy.Active (SNMP.Privacy (Device.SNMP previous)) = true ->
  Authentication.Active (SNMP.Authentication (Device.SNMP d)) = false ->
  Privacy.Active (SNMP.Privacy (Device.SNMP d)) = false ->
  gosnmp.Target (SNMPConfigure d (SNMPConfigure previous s)) = Device.Host d /\
  gosnmp.Community (SNMPConfigure d (SNMPConfigure previous s))
  = SNMP.Community (Device.SNMP d) /\
  gosnmp.SecurityParameters (SNMPConfigure d (SNMPConfigure previous s))
  = Some (usmSecurityParameters (Device.SNMP previous)).
Proof.
  intros Hp Ha Hb.
  destruct (SNMPConfigure_target d (SNMPConfigure previous s)) as (-> & -> & _).
  rewrite !SNMPConfigure_bundle, Hp, Ha, Hb. now repeat split.
Qed.

Lemma SNMPConfigure_keeps_previous_bundle_witness :
  gosnmp.Target (SNMPConfigure readmeDevice2 (SNMPConfigure readmeDevice1 gosnmp.Default))
  = "myhost2.xxxxxxxx.xyz" /\
  gosnmp.SecurityParameters
    (SNMPConfigure readmeDevice2 (SNMPConfigure readmeDevice1 gosnmp.Default))
  = Some (usmSecurityParameters (Device.SNMP readmeDevice1)).
Proof.
  destruct (SNMPConfigure_keeps_previous_bundle readmeDevice1 readmeDevice2
              gosnmp.Default eq_refl eq_refl eq_refl) as (Ht & _ & Hb).
  split; [exact Ht | exact Hb].
Defined.

(** X5: a "3" descriptor that authenticates without privacy gets a bundle
    with the user name taken from the community string, the resolved
    authentication algorithm and its passphrase, and no privacy algorithm or
    passphrase; the message flags of the session are AuthPriv all the same,
    so the session asks for privacy without any privacy material. *)
Theorem SNMPConfigure_v3_auth_only (d : Device.t) (s : gosnmp.GoSNMP) :
  SNMP.Version (Device.SNMP d) = "3" ->
  Authentication.Active (SNMP.Authentication (Device.SNMP d)) = true ->
  Privacy.Active (SNMP.Privacy (Device.SNMP d)) = false ->
  gosnmp.SecurityParameters (SNMPConfigure d s) =
  Some {| gosnmp.UserName := SNMP.Community (Device.SNMP d);
          gosnmp.AuthenticationProtocol :=
            Authentication_GetProtocol (SNMP.Authentication (Device.SNMP d));
          gosnmp.AuthenticationPassphrase :=
            Authentication.Passphrase (SNMP.Authentication (Device.SNMP d));
          gosnmp.PrivacyProtocol := 0%N;
          gosnmp.PrivacyPassphrase := EmptyString |} /\
  gosnmp.requiresPriv (gosnmp.MsgFlags (SNMPConfigure d s)) = true.
Proof.
  intros Hv Ha Hp. rewrite SNMPConfigure_bundle, Ha. simpl.
  unfold usmSecurityParameters. rewrite Ha, Hp. split; [reflexivity|].
  unfold SNMPConfigure, configureVersion. rewrite Hv, Ha. reflexivity.
Qed.

Lemma SNMPConfigure_v3_auth_only_witness :
  gosnmp.SecurityParameters (SNMPConfigure v3AuthOnly gosnmp.Default) =
  Some {| gosnmp.UserName := "monitor";
          gosnmp.AuthenticationProtocol := gosnmp.MD5;
          gosnmp.AuthenticationPassphrase := "secret";
          gosnmp.PrivacyProtocol := 0%N;
          gosnmp.PrivacyPassphrase := EmptyString |} /\
  gosnmp.requiresPriv (gosnmp.MsgFlags (SNMPConfigure v3AuthOnly gosnmp.Default)) = true.
Proof.
  exact (SNMPConfigure_v3_auth_only v3AuthOnly gosnmp.Default eq_refl eq_refl eq_refl).
Defined.

(** ** One poll *)

Lemma closes_app (a b : list Event) : closes (a ++ b)%list = closes a + closes b.
Proof. unfold closes. now rewrite filter_app, length_app. Qed.

Lemma requests_app (a b : list Event) :
  requests (a ++ b)%list = requests a + requests b.
Proof. unfold requests. now rewrite filter_app, length_app. Qed.

Lemma printedLines_app (a b : list Event) :
  printedLines (a ++ b)%list = (printedLines a ++ printedLines b)%list.
Proof. unfold printedLines. now rewrite flat_map_app. Qed.

Lemma deferredClose_events net s :
  closes (deferredClose net s) = 1 /\ requests (deferredClose net s) = 0 /\
  printedLines (deferredClose net s) = [].
Proof. unfold deferredClose. destruct (gosnmp.Close net s); now repeat split. Qed.

(** The loop only prints. *)
Lemma switchVariable_events d v d1 printed :
  switchVariable d v = Some (d1, printed) ->
  closes printed = 0 /\ requests printed = 0 /\
  printedLines printed =
  (if existsb (String.eqb (gosnmp.Name v)) oids then []
   else match gosnmp.Value v with
        | gosnmp.Bytes b => [gosnmp.Name v ++ " : " ++ b]
        | _ => []
        end).
Proof.
  unfold switchVariable, oids. cbn [existsb].
  string_cases; destruct (gosnmp.Value v); cbn [assertBytes];
    intros Hsw; try discriminate Hsw; injection Hsw as <- <-;
    now repeat split.
Qed.

Lemma rangeVariables_events (variables : list gosnmp.SnmpPDU) :
  forall d,
    closes (snd (fst (rangeVariables d variables))) = 0 /\
    requests (snd (fst (rangeVariables d variables))) = 0 /\
    (allBytes variables = true ->
     printedLines (snd (fst (rangeVariables d variables))) = unknownLines variables).
Proof.
  induction variables as [|v rest IH]; intros d; [now repeat split|].
  cbn [rangeVariables].
  destruct (switchVariable d v) as [[d1 printed]|] eqn:E.
  - destruct (switchVariable_events _ _ _ _ E) as (C1 & R1 & P1).
    specialize (IH d1).
    destruct (rangeVariables d1 rest) as [[d2 printed'] panicked].
    cbn [fst snd] in *. destruct IH as (C2 & R2 & P2).
    rewrite closes_app, requests_app, printedLines_app, C1, C2, R1, R2, P1.
    repeat split. intros B. cbn [allBytes forallb] in B.
    apply andb_true_iff in B. destruct B as [_ B]. fold (allBytes rest) in B.
    rewrite (P2 B). reflexivity.
  - cbn [fst snd]. repeat split. intros B. exfalso.
    cbn [allBytes forallb] in B. apply andb_true_iff in B. destruct B as [B _].
    destruct v as [name value]. cbn [gosnmp.Value] in B.
    destruct value; try discriminate B.
    destruct (switchVariable_bytes d name b) as (? & ? & E'). congruence.
Qed.

(** The loop stops at the first value that is not a byte slice: the record
    is the one the variables before it give. *)
Lemma rangeVariables_stops (good : list gosnmp.SnmpPDU) bad rest :
  allBytes good = true ->
  assertBytes (gosnmp.Value bad) = None ->
  forall d,
    fst (fst (rangeVariables d (good ++ bad :: rest)%list))
    = fst (fst (rangeVariables d good)).
Proof.
  intros B Hbad. induction good as [|[name value] good IH]; intros d.
  - cbn [app rangeVariables]. now rewrite (switchVariable_not_bytes d bad Hbad).
  - cbn [allBytes forallb gosnmp.Value] in B.
    apply andb_true_iff in B. destruct B as [Bv B]. fold (allBytes good) in B.
    specialize (IH B). cbn [app rangeVariables].
    destruct (switchVariable d _) as [[d1 printed]|]; [|reflexivity].
    specialize (IH d1).
    destruct (rangeVariables d1 (good ++ bad :: rest)%list) as [[? ?] ?].
    destruct (rangeVariables d1 good) as [[? ?] ?]. exact IH.
Qed.

(** The descriptor part of the record survives every way through the
    function, and the flag is never cleared. *)
Lemma GetDevice_frame net s d :
  Device.Host (device (GetDevice net s d)) = Device.Host d /\
  Device.SNMP (device (GetDevice net s d)) = Device.SNMP d /\
  (Device.Reached d = true -> Device.Reached (device (GetDevice net s d)) = true).
Proof.
  destruct (connectResult net s d) as [err|] eqn:C.
  - rewrite (GetDevice_connect_failed _ _ _ _ C). now repeat split.
  - destruct (getResult net s d) as [err|vs] eqn:G.
    + destruct (GetDevice_query_failed _ _ _ _ C G) as (-> & _).
      now repeat split.
    + destruct (GetDevice_answered _ _ _ _ C G) as (-> & _).
      destruct (rangeVariables_frame vs (Device.setReached true d))
        as (-> & -> & ->).
      now repeat split.
Qed.

(** X6: a poll never changes the host or the SNMP block of its record,
    however it ends: with a failed connect, a failed request, an answer or a
    panic in the loop. *)
Theorem GetDevice_keeps_descriptor net s d :
  Device.Host (device (GetDevice net s d)) = Device.Host d /\
  Device.SNMP (device (GetDevice net s d)) = Device.SNMP d.
Proof.
  destruct (GetDevice_frame net s d) as (-> & -> & _). now split.
Qed.

(** X7: what [Close] returns has no influence on the result of a poll: the
    record, the returned error (or the panic), the session and the printed
    lines are the same whether closing the connection fails or not. *)
Theorem GetDevice_close_error_ignored net close s d :
  device (GetDevice (withClose net close) s d) = device (GetDevice net s d) /\
  outcome (GetDevice (withClose net close) s d) = outcome (GetDevice net s d) /\
  session (GetDevice (withClose net close) s d) = session (GetDevice net s d) /\
  printedLines (events (GetDevice (withClose net close) s d))
  = printedLines (events (GetDevice net s d)).
Proof.
  rewrite !GetDevice_unfold.
  change (connectResult (withClose net close) s d) with (connectResult net s d).
  change (getResult (withClose net close) s d) with (getResult net s d).
  change (connected (withClose net close) s d) with (connected net s d).
  change (gosnmp.Get (withClose net close)) with (gosnmp.Get net).
  destruct (connectResult net s d); [now repeat split|]. cbv zeta.
  destruct (getResult net s d) as [err|vs];
    cbn [device outcome session events]; repeat split;
    rewrite !printedLines_app;
    now rewrite !(proj2 (proj2 (deferredClose_events _ _))).
Qed.

(** X8: a poll that opened the session issues exactly one batch request and
    closes the connection exactly once, on every way out (a failed request,
    a normal return, a panic in the loop); a poll whose session could not be
    opened issues no request and closes nothing. *)
Theorem GetDevice_closes_once net s d :
  closes (events (GetDevice net s d))
  = match connectResult net s d with Some _ => 0 | None => 1 end /\
  requests (events (GetDevice net s d))
  = match connectResult net s d with Some _ => 0 | None => 1 end.
Proof.
  rewrite GetDevice_unfold.
  destruct (connectResult net s d); [now split|]. cbv zeta.
  destruct (deferredClose_events net (fst (gosnmp.Get net (connected net s d) oids)))
    as (C & R & _).
  destruct (getResult net s d) as [err|vs]; cbn [events].
  - now rewrite closes_app, requests_app, C, R.
  - destruct (rangeVariables_events vs (Device.setReached true d)) as (C' & R' & _).
    now rewrite !closes_app, !requests_app, C, R, C', R'.
Qed.

(** X9: when the batch request fails, the returned error is the host,
    followed by " Fehler bei der SNMP-Anfrage: " and the error of the
    library; the record is left as it was (the flag is not set), nothing is
    printed and the connection is closed. *)
Theorem GetDevice_query_failure net s d err :
  connectResult net s d = None ->
  getResult net s d = inl err ->
  outcome (GetDevice net s d)
  = Return (Some (Device.Host d ++ " Fehler bei der SNMP-Anfrage: " ++ err)) /\
  strings.HasPrefix (Device.Host d ++ " Fehler bei der SNMP-Anfrage: " ++ err)
                    (Device.Host d) = true /\
  device (GetDevice net s d) = d /\
  printedLines (events (GetDevice net s d)) = [] /\
  closes (events (GetDevice net s d)) = 1.
Proof.
  intros C G. rewrite GetDevice_unfold, C, G. cbv zeta.
  cbn [outcome device events]. repeat split.
  - apply prefix_append.
  - rewrite printedLines_app.
    now rewrite (proj2 (proj2 (deferredClose_events _ _))).
  - rewrite closes_app. now rewrite (proj1 (deferredClose_events _ _)).
Qed.

Lemma GetDevice_query_failure_witness :
  outcome (GetDevice (netQueryFails "request timeout") gosnmp.Default publicHost)
  = Return (Some "public.example.net Fehler bei der SNMP-Anfrage: request timeout") /\
  device (GetDevice (netQueryFails "request timeout") gosnmp.Default publicHost)
  = publicHost.
Proof.
  destruct (GetDevice_query_failure (netQueryFails "request timeout")
              gosnmp.Default publicHost "request timeout" eq_refl eq_refl)
    as (Ho & _ & Hd & _).
  split; [exact Ho | exact Hd].
Defined.

(** ** An answer and the record *)

(** X10: a field whose address is missing from an answer of byte values
    keeps the text it had before the poll (a stale value of an earlier
    poll, or the empty text of a fresh record); an empty answer sets the
    reachability flag and nothing else. *)
Theorem GetDevice_missing_address_keeps_field net s d variables :
  connectResult net s d = None ->
  getResult net s d = inr variables ->
  allBytes variables = true ->
  (lastValue ".1.3.6.1.4.1.14988.1.1.4.4.0" variables = None ->
   Version.RouterOS (Device.Version (device (GetDevice net s d)))
   = Version.RouterOS (Device.Version d)) /\
  (lastValue ".1.3.6.1.4.1.14988.1.1.7.4.0" variables = None ->
   Version.Bootloader (Device.Version (device (GetDevice net s d)))
   = Version.Bootloader (Device.Version d)) /\
  (lastValue ".1.3.6.1.4.1.14988.1.1.7.7.0" variables = None ->
   Version.Latest (Device.Version (device (GetDevice net s d)))
   = Version.Latest (Device.Version d)) /\
  (lastValue ".1.3.6.1.2.1.1.1.0" variables = None ->
   Device.Model (device (GetDevice net s d)) = Device.Model d) /\
  (lastValue ".1.3.6.1.2.1.1.5.0" variables = None ->
   Device.Name (device (GetDevice net s d)) = Device.Name d) /\
  (variables = [] ->
   device (GetDevice net s d) = Device.setReached true d /\
   outcome (GetDevice net s d) = Return None).
Proof.
  intros C G B.
  destruct (GetDevice_answered _ _ _ _ C G) as (Hd & Ho).
  pose proof (rangeVariables_assigns variables B (Device.setReached true d))
    as (A1 & A2 & A3 & A4 & A5).
  cbv zeta in *. unfold assigned in *. rewrite <- Hd in A1, A2, A3, A4, A5.
  split; [intros H; rewrite H in A1; exact A1|].
  split; [intros H; rewrite H in A3; exact A3|].
  split; [intros H; rewrite H in A2; exact A2|].
  split; [intros H; rewrite H in A4; exact A4|].
  split; [intros H; rewrite H in A5; exact A5|].
  intros E. rewrite E in Hd, Ho. split; [exact Hd | exact Ho].
Qed.

Lemma GetDevice_missing_address_keeps_field_witness :
  Device.Model (device (GetDevice (netAnswers nameOnlyAnswer) gosnmp.Default
                          (Device.setModel "CCR1009" publicHost)))
  = "CCR1009".
Proof.
  exact (proj1 (proj2 (proj2 (proj2
           (GetDevice_missing_address_keeps_field (netAnswers nameOnlyAnswer)
              gosnmp.Default (Device.setModel "CCR1009" publicHost)
              nameOnlyAnswer eq_refl eq_refl eq_refl)))) eq_refl).
Defined.

(** X11: when the loop meets a value that is not a byte slice the call
    panics, and the record holds what the variables in front of that value
    gave: it equals the record of a poll that is answered with those
    variables only.  The fields of the variables behind it are not set. *)
Theorem GetDevice_panic_keeps_prefix net s d good bad rest :
  connectResult net s d = None ->
  getResult net s d = inr (good ++ bad :: rest)%list ->
  allBytes good = true ->
  assertBytes (gosnmp.Value bad) = None ->
  outcome (GetDevice net s d) = Panic /\
  device (GetDevice net s d) = device (GetDevice (netAnswers good) s d).
Proof.
  intros C G B Hbad.
  destruct (GetDevice_answered _ _ _ _ C G) as (Hd & Ho).
  destruct (GetDevice_answered (netAnswers good) s d good eq_refl eq_refl)
    as (Hd' & _).
  rewrite Ho, Hd, Hd'. split.
  - assert (F : allBytes (good ++ bad :: rest)%list = false).
    { unfold allBytes. rewrite forallb_app. cbn [forallb].
      destruct (gosnmp.Value bad); try discriminate Hbad;
        now rewrite andb_false_r. }
    now rewrite F.
  - now apply rangeVariables_stops.
Qed.

Lemma GetDevice_panic_keeps_prefix_witness :
  outcome (GetDevice (netAnswers answerWithoutLatest) gosnmp.Default publicHost)
  = Panic /\
  Device.Name (device (GetDevice (netAnswers answerWithoutLatest)
                         gosnmp.Default publicHost)) = EmptyString /\
  Version.RouterOS (Device.Version
    (device (GetDevice (netAnswers answerWithoutLatest) gosnmp.Default publicHost)))
  = "7.15.3".
Proof.
  destruct (GetDevice_panic_keeps_prefix (netAnswers answerWithoutLatest)
              gosnmp.Default publicHost
              [octets ".1.3.6.1.4.1.14988.1.1.4.4.0" "7.15.3";
               octets ".1.3.6.1.4.1.14988.1.1.7.4.0" "7.15.2"]
              {| gosnmp.Name := ".1.3.6.1.4.1.14988.1.1.7.7.0";
                 gosnmp.Value := gosnmp.Nil |}
              [octets ".1.3.6.1.2.1.1.1.0" "RouterOS RB1100";
               octets ".1.3.6.1.2.1.1.5.0" "core-gw"]
              eq_refl eq_refl eq_refl eq_refl) as (Ho & Hd).
  rewrite Hd. split; [exact Ho|]. split; reflexivity.
Defined.

(** X12: for answers of byte values the record after the poll depends on
    the last value under each of the five addresses only: two answers that
    agree on those give the same record, whatever the order of their
    variables, their repetitions and their other variables. *)
Theorem GetDevice_last_values_decide net net' s d variables variables' :
  connectResult net s d = None ->
  getResult net s d = inr variables ->
  connectResult net' s d = None ->
  getResult net' s d = inr variables' ->
  allBytes variables = true ->
  allBytes variables' = true ->
  (forall oid, In oid oids -> lastValue oid variables = lastValue oid variables') ->
  device (GetDevice net s d) = device (GetDevice net' s d).
Proof.
  intros C G C' G' B B' L.
  destruct (GetDevice_answered _ _ _ _ C G) as (-> & _).
  destruct (GetDevice_answered _ _ _ _ C' G') as (-> & _).
  pose proof (rangeVariables_frame variables (Device.setReached true d))
    as (Fr & Fh & Fs).
  pose proof (rangeVariables_frame variables' (Device.setReached true d))
    as (Fr' & Fh' & Fs').
  pose proof (rangeVariables_assigns variables B (Device.setReached true d))
    as (A1 & A2 & A3 & A4 & A5).
  pose proof (rangeVariables_assigns variables' B' (Device.setReached true d))
    as (A1' & A2' & A3' & A4' & A5').
  cbv zeta in *. unfold assigned in *.
  rewrite <- (L ".1.3.6.1.4.1.14988.1.1.4.4.0") in A1' by (simpl; tauto).
  rewrite <- (L ".1.3.6.1.4.1.14988.1.1.7.7.0") in A2' by (simpl; tauto).
  rewrite <- (L ".1.3.6.1.4.1.14988.1.1.7.4.0") in A3' by (simpl; tauto).
  rewrite <- (L ".1.3.6.1.2.1.1.1.0") in A4' by (simpl; tauto).
  rewrite <- (L ".1.3.6.1.2.1.1.5.0") in A5' by (simpl; tauto).
  rewrite <- A1 in A1'. rewrite <- A2 in A2'. rewrite <- A3 in A3'.
  rewrite <- A4 in A4'. rewrite <- A5 in A5'.
  rewrite <- Fr in Fr'. rewrite <- Fh in Fh'. rewrite <- Fs in Fs'.
  destruct (fst (fst (rangeVariables _ variables))) as [r h m n sn [v1 v2 v3]].
  destruct (fst (fst (rangeVariables _ variables'))) as [r' h' m' n' sn' [w1 w2 w3]].
  simpl in *. congruence.
Qed.

Lemma GetDevice_last_values_decide_witness :
  device (GetDevice (netAnswers fullAnswer) gosnmp.Default publicHost)
  = device (GetDevice (netAnswers shuffledAnswer) gosnmp.Default publicHost).
Proof.
  refine (GetDevice_last_values_decide (netAnswers fullAnswer)
            (netAnswers shuffledAnswer) gosnmp.Default publicHost
            fullAnswer shuffledAnswer eq_refl eq_refl eq_refl eq_refl
            eq_refl eq_refl _).
  intros oid Hin. unfold oids in Hin. simpl in Hin.
  repeat (destruct Hin as [<-|Hin]; [reflexivity|]). destruct Hin.
Defined.

(** X13: on an answer of byte values the poll prints one line per variable
    under an address that was not requested, the address, " : " and the
    text, in the order of the answer, and nothing for the five requested
    addresses. *)
Theorem GetDevice_prints_unknown net s d variables :
  connectResult net s d = None ->
  getResult net s d = inr variables ->
  allBytes variables = true ->
  printedLines (events (GetDevice net s d)) = unknownLines variables /\
  (Forall (fun v => existsb (String.eqb (gosnmp.Name v)) oids = true) variables ->
   printedLines (events (GetDevice net s d)) = []).
Proof.
  intros C G B.
  assert (P : printedLines (events (GetDevice net s d)) = unknownLines variables).
  { rewrite GetDevice_unfold, C, G. cbv zeta. cbn [events].
    destruct (rangeVariables_events variables (Device.setReached true d))
      as (_ & _ & P).
    rewrite !printedLines_app, (P B).
    rewrite (proj2 (proj2 (deferredClose_events _ _))).
    simpl. now rewrite app_nil_r. }
  split; [exact P|]. intros K. rewrite P. clear - K.
  induction K as [|v l Hv _ IH]; [reflexivity|].
  unfold unknownLines in *. cbn [flat_map]. now rewrite Hv, IH.
Qed.

Lemma GetDevice_prints_unknown_witness :
  printedLines (events (GetDevice (netAnswers shuffledAnswer) gosnmp.Default publicHost))
  = [".1.3.6.1.2.1.1.3.0 : 4711"].
Proof.
  exact (proj1 (GetDevice_prints_unknown (netAnswers shuffledAnswer) gosnmp.Default
                  publicHost shuffledAnswer eq_refl eq_refl eq_refl)).
Defined.

(** ** A scan of the fleet *)

Lemma pollAll_cons net s d rest :
  pollAll net s (d :: rest) =
  match outcome (GetDevice net s d) with
  | Panic => (session (GetDevice net s d), device (GetDevice net s d) :: rest, true)
  | Return _ =>
      (fst (fst (pollAll net (session (GetDevice net s d)) rest)),
       device (GetDevice net s d)
       :: snd (fst (pollAll net (session (GetDevice net s d)) rest)),
       snd (pollAll net (session (GetDevice net s d)) rest))
  end.
Proof.
  destruct (outcome (GetDevice net s d)) as [err|] eqn:O.
  - now apply pollAll_after_return with (err := err).
  - now apply pollAll_after_panic.
Qed.

(** X14: the scan keeps the fleet aligned with its input: as many records,
    in the same order, each with the host and the SNMP block it had, also
    when a poll panics and ends the scan early. *)
Theorem pollAll_aligned net s ds :
  length (snd (fst (pollAll net s ds))) = length ds /\
  map Device.Host (snd (fst (pollAll net s ds))) = map Device.Host ds /\
  map Device.SNMP (snd (fst (pollAll net s ds))) = map Device.SNMP ds.
Proof.
  revert s; induction ds as [|d rest IH]; intros s; [now repeat split|].
  rewrite pollAll_cons.
  destruct (GetDevice_frame net s d) as (Hh & Hs & _).
  destruct (outcome (GetDevice net s d)); cbn [fst snd length map].
  - destruct (IH (session (GetDevice net s d))) as (-> & -> & ->).
    now rewrite Hh, Hs.
  - now rewrite Hh, Hs.
Qed.

(** X15: on a network on which no session can be opened the scan goes
    through the whole fleet without a panic and changes no record: no flag
    is set and no field is written. *)
Theorem pollAll_network_down net s ds :
  (forall x, snd (gosnmp.Connect net x) <> None) ->
  snd (fst (pollAll net s ds)) = ds /\
  snd (pollAll net s ds) = false.
Proof.
  intros Down. revert s; induction ds as [|d rest IH]; intros s; [now split|].
  destruct (connectResult net s d) as [err|] eqn:C;
    [|now elim (Down (SNMPConfigure d s))].
  rewrite pollAll_cons, (GetDevice_connect_failed _ _ _ _ C).
  cbn [outcome device session fst snd].
  destruct (IH (connected net s d)) as (-> & ->). now split.
Qed.

Lemma pollAll_network_down_witness :
  snd (fst (pollAll (netConnectFails "dial udp: i/o timeout") gosnmp.Default
                    [readmeDevice1; readmeDevice2]))
  = [readmeDevice1; readmeDevice2] /\
  snd (pollAll (netConnectFails "dial udp: i/o timeout") gosnmp.Default
               [readmeDevice1; readmeDevice2]) = false.
Proof.
  apply (pollAll_network_down (netConnectFails "dial udp: i/o timeout")).
  intros x. discriminate.
Defined.

(** X16: a scan never clears a reachability flag: a record that was marked
    reachable before the scan is marked reachable after it, whatever the
    network did in between. *)
Theorem pollAll_never_clears net s ds :
  Forall2 (fun before after =>
             Device.Reached before = true -> Device.Reached after = true)
          ds (snd (fst (pollAll net s ds))).
Proof.
  revert s; induction ds as [|d rest IH]; intros s; [constructor|].
  rewrite pollAll_cons.
  destruct (GetDevice_frame net s d) as (_ & _ & Hr).
  destruct (outcome (GetDevice net s d)); cbn [fst snd].
  - constructor; [exact Hr | apply IH].
  - constructor; [exact Hr|].
    clear. induction rest; constructor; auto.
Qed.

(** X17: in a scan that does not panic, the record at a position is the
    record of that device's own poll on the shared session as the scan of
    the devices in front of it leaves it (that scan does not panic either).
    The devices behind it have no influence on it, and the devices in front
    of it only through the shared session. *)
Theorem pollAll_pointwise net s ds i d :
  snd (pollAll net s ds) = false ->
  nth_error ds i = Some d ->
  snd (pollAll net s (firstn i ds)) = false /\
  nth_error (snd (fst (pollAll net s ds))) i
  = Some (device (GetDevice net (fst (fst (pollAll net s (firstn i ds)))) d)).
Proof.
  revert s i; induction ds as [|d0 rest IH]; intros s i P N.
  - destruct i; discriminate N.
  - destruct i as [|i]; cbn [firstn nth_error] in *.
    + injection N as ->. rewrite pollAll_cons in *.
      destruct (outcome (GetDevice net s d)); [|discriminate P].
      now split.
    + rewrite !pollAll_cons in *.
      destruct (outcome (GetDevice net s d0)); [|discriminate P].
      cbn [fst snd nth_error] in *.
      exact (IH (session (GetDevice net s d0)) i P N).
Qed.

Lemma pollAll_pointwise_witness :
  nth_error (snd (fst (pollAll (netReportable fullAnswer) gosnmp.Default
                               [readmeDevice1; readmeDevice2]))) 1
  = Some (device (GetDevice (netReportable fullAnswer)
                    (fst (fst (pollAll (netReportable fullAnswer) gosnmp.Default
                                       [readmeDevice1])))
                    readmeDevice2)).
Proof.
  exact (proj2 (pollAll_pointwise (netReportable fullAnswer) gosnmp.Default
                  [readmeDevice1; readmeDevice2] 1 readmeDevice2
                  eq_refl eq_refl)).
Defined.

(** X18: a panic ends the scan.  The records of the devices in front of
    the panicking one are those of a scan of these devices alone, which does
    not panic; the panicking record holds what its poll, on the session that
    scan leaves, had written before the panic; the records behind it are
    exactly as they were: they are not polled at all. *)
Theorem pollAll_panic_stops net s ds :
  snd (pollAll net s ds) = true ->
  exists before d after,
    ds = (before ++ d :: after)%list /\
    snd (pollAll net s before) = false /\
    outcome (GetDevice net (fst (fst (pollAll net s before))) d) = Panic /\
    snd (fst (pollAll net s ds))
    = (snd (fst (pollAll net s before))
       ++ device (GetDevice net (fst (fst (pollAll net s before))) d)
       :: after)%list.
Proof.
  revert s; induction ds as [|d0 rest IH]; intros s P; [discriminate P|].
  rewrite pollAll_cons in *.
  destruct (outcome (GetDevice net s d0)) as [err|] eqn:O; cbn [fst snd] in *.
  - destruct (IH (session (GetDevice net s d0)) P)
      as (before & d & after & -> & Hb & Ho & Hr).
    exists (d0 :: before), d, after.
    rewrite pollAll_cons, O. cbn [fst snd app].
    rewrite Hr. now repeat split.
  - exists [], d0, rest. cbn [pollAll fst snd app]. now repeat split.
Qed.

Lemma pollAll_panic_stops_witness :
  exists before d after,
    [readmeDevice1; publicHost; readmeDevice2] = (before ++ d :: after)%list /\
    snd (pollAll (netAnswers answerWithoutLatest) gosnmp.Default before) = false /\
    outcome (GetDevice (netAnswers answerWithoutLatest)
               (fst (fst (pollAll (netAnswers answerWithoutLatest)
                                  gosnmp.Default before))) d) = Panic /\
    snd (fst (pollAll (netAnswers answerWithoutLatest) gosnmp.Default
                      [readmeDevice1; publicHost; readmeDevice2]))
    = (snd (fst (pollAll (netAnswers answerWithoutLatest) gosnmp.Default before))
       ++ device (GetDevice (netAnswers answerWithoutLatest)
                    (fst (fst (pollAll (netAnswers answerWithoutLatest)
                                       gosnmp.Default before))) d)
       :: after)%list.
Proof.
  exact (pollAll_panic_stops (netAnswers answerWithoutLatest) gosnmp.Default
           [readmeDevice1; publicHost; readmeDevice2] eq_refl).
Defined.

(** ** Secrets and the poll *)

Lemma switchVariable_samePublic d d' v :
  samePublic d d' ->
  match switchVariable d v, switchVariable d' v with
  | Some (d1, _), Some (d1', _) => samePublic d1 d1'
  | None, None => True
  | _, _ => False
  end.
Proof.
  intros (Hr & Hh & Hm & Hn & Hv & Ha & Hp & Hver).
  unfold switchVariable. string_cases; destruct (assertBytes _); trivial;
    unfold samePublic; simpl; rewrite ?Hver; now repeat split.
Qed.

Lemma rangeVariables_samePublic (variables : list gosnmp.SnmpPDU) :
  forall d d',
    samePublic d d' ->
    samePublic (fst (fst (rangeVariables d variables)))
               (fst (fst (rangeVariables d' variables))).
Proof.
  induction variables as [|v rest IH]; intros d d' H; [exact H|].
  cbn [rangeVariables].
  pose proof (switchVariable_samePublic d d' v H) as S.
  destruct (switchVariable d v) as [[d1 p1]|];
    destruct (switchVariable d' v) as [[d1' p1']|]; try contradiction;
    [|exact H].
  specialize (IH d1 d1' S).
  destruct (rangeVariables d1 rest) as [[? ?] ?].
  destruct (rangeVariables d1' rest) as [[? ?] ?]. exact IH.
Qed.

(** X19: a poll copies no secret into an exported field.  Two records that
    differ in their secrets only, polled on networks that treat the two
    sessions alike, differ in their secrets only afterwards, and serialise
    to the same text: the secrets reach the output through what the network
    answers, never through the record. *)
Theorem GetDevice_samePublic net net' s s' d d' :
  samePublic d d' ->
  connectResult net s d = connectResult net' s' d' ->
  getResult net s d = getResult net' s' d' ->
  samePublic (device (GetDevice net s d)) (device (GetDevice net' s' d')) /\
  outcome (GetDevice net s d) = outcome (GetDevice net' s' d') /\
  ResultJson (Some [device (GetDevice net s d)])
  = ResultJson (Some [device (GetDevice net' s' d')]).
Proof.
  intros H C G.
  assert (P : samePublic (device (GetDevice net s d)) (device (GetDevice net' s' d')) /\
              outcome (GetDevice net s d) = outcome (GetDevice net' s' d')).
  { destruct (connectResult net s d) as [err|] eqn:C1.
    - symmetry in C.
      rewrite (GetDevice_connect_failed _ _ _ _ C1),
              (GetDevice_connect_failed _ _ _ _ C).
      now split.
    - symmetry in C.
      destruct (getResult net s d) as [err|vs] eqn:G1;
        symmetry in G.
      + destruct (GetDevice_query_failed _ _ _ _ C1 G1) as (-> & ->).
        destruct (GetDevice_query_failed _ _ _ _ C G) as (-> & ->).
        split; [exact H|]. now rewrite (proj1 (proj2 H)).
      + destruct (GetDevice_answered _ _ _ _ C1 G1) as (-> & ->).
        destruct (GetDevice_answered _ _ _ _ C G) as (-> & ->).
        split; [|reflexivity]. apply rangeVariables_samePublic.
        destruct H as (Hr & Hh & Hm & Hn & Hv & Ha & Hp & Hver).
        unfold samePublic; simpl. now repeat split. }
  destruct P as (P & O). split; [exact P|]. split; [exact O|].
  unfold ResultJson. cbn [map json.elements].
  now rewrite (marshalDevice_samePublic _ _ P).
Qed.

Lemma GetDevice_samePublic_witness :
  ResultJson (Some [device (GetDevice (netAnswers fullAnswer) gosnmp.Default publicHost)])
  = ResultJson (Some [device (GetDevice (netAnswers fullAnswer) gosnmp.Default
                                publicHostOtherSecrets)]).
Proof.
  refine (proj2 (proj2 (GetDevice_samePublic (netAnswers fullAnswer)
                          (netAnswers fullAnswer) gosnmp.Default gosnmp.Default
                          publicHost publicHostOtherSecrets _ eq_refl eq_refl))).
  repeat split.
Defined.
